(** * FreeForecaster (main.py): research fetcher and binary forecast

    A shallow embedding of [FreeForecaster.run_research] and
    [FreeForecaster._run_forecast_on_binary].  Python strings are lists of
    code points, the collaborators the methods call (the Wikipedia client,
    the process environment, [requests.get], the local model) are fields of
    a [World], and every call that leaves the process is logged in a trace,
    so that what a collaborator receives can be stated. *)

From Stdlib Require Import Ascii String.
From Stdlib Require Import List NArith ZArith Lia Bool.
Import ListNotations.

Set Implicit Arguments.
Set Warnings "-register-all".

(** ** Python strings *)

Definition str := list N.

Definition lit (s : string) : str := map N_of_ascii (list_ascii_of_string s).
Arguments lit s%_string.

Definition nl : N := 10.       (* "\n" *)
Definition dquote : N := 34.   (* the double quote *)
Definition pct : N := 37.      (* "%" *)

Fixpoint str_eqb (a b : str) : bool :=
  match a, b with
  | [], [] => true
  | x :: a', y :: b' => N.eqb x y && str_eqb a' b'
  | _, _ => false
  end.

(** [sep.join(xs)] *)
Fixpoint join (sep : str) (xs : list str) : str :=
  match xs with
  | [] => []
  | [x] => x
  | x :: xs' => x ++ sep ++ join sep xs'
  end.

(** Truth value of a string: only the empty string is false. *)
Definition truthy (s : str) : bool :=
  match s with [] => false | _ :: _ => true end.


(** ** Exceptions and results *)

Inductive exn :=
| NameError (name : str)
| AttributeError
| TypeError
| KeyError (key : str)
| External (what : str).   (* raised inside a collaborator: transport, decoding *)

Inductive result (A : Type) :=
| Ok (a : A)
| Raise (e : exn).
Arguments Ok {A} a.
Arguments Raise {A} e.

(** ** Values decoded from a JSON body *)

Inductive json :=
| JNull
| JBool (b : bool)
| JNum (repr : str)          (* a number, carried as the text [str()] prints for it *)
| JStr (s : str)
| JArr (items : list json)
| JObj (fields : list (str * json)).

(** A decoded object lists each key once, so the first binding is the only one. *)
Fixpoint dict_lookup (k : str) (d : list (str * json)) : option json :=
  match d with
  | [] => None
  | (k', v) :: d' => if str_eqb k k' then Some v else dict_lookup k d'
  end.

(** ** Collaborators *)

Record WikipediaPage := {
  page_exists : result bool;      (* wiki_page.exists() *)
  page_summary : result str       (* wiki_page.summary *)
}.

Record Response := {
  status_code : Z;
  response_json : result json     (* response.json() *)
}.

Record Date := { year : N; month : N; day : N }.

Record World := {
  environ : str -> option str;             (* os.environ *)
  wiki_page : str -> WikipediaPage;        (* self.wiki.page(title) *)
  requests_get : str -> result Response;   (* requests.get(url) *)
  str_of_container : json -> str;          (* str() of a decoded list or dict *)
  llm_invoke : str -> result str;          (* llm.invoke(prompt) *)
  now : Date;                              (* datetime.now() *)
  clean_indents : str -> str;              (* forecasting_tools.clean_indents *)
  on_no_percentage : str -> result Z       (* the extractor when nothing matches *)
}.

(** Calls that leave the process, with the argument they receive. *)
Inductive event :=
| EvWikiPage (title : str)
| EvHttpGet (url : str)
| EvLlmInvoke (prompt : str).

(** ** The effect monad: a trace of calls and a result or an exception *)

Definition M (A : Type) : Type := (list event * result A)%type.

Definition ret {A} (a : A) : M A := ([], Ok a).
Definition raise {A} (e : exn) : M A := ([], Raise e).
Definition lift {A} (r : result A) : M A := ([], r).
Definition call {A} (ev : event) (r : result A) : M A := ([ev], r).

Definition bind {A B} (m : M A) (k : A -> M B) : M B :=
  match m with
  | (t, Ok a) => let (t', r) := k a in (t ++ t', r)
  | (t, Raise e) => (t, Raise e)
  end.

Notation "x <- m ;; k" := (bind m (fun x => k))
  (at level 61, m at next level, right associativity).

Definition trace {A} (m : M A) : list event := fst m.
Definition outcome {A} (m : M A) : result A := snd m.

Fixpoint mapM {A B} (f : A -> M B) (xs : list A) : M (list B) :=
  match xs with
  | [] => ret []
  | x :: xs' => y <- f x ;; ys <- mapM f xs' ;; ret (y :: ys)
  end.

(** ** Global names

    A global name is resolved when the line that uses it runs; a name bound
    neither in the module nor among the builtins raises [NameError].  None of
    the names the two methods load ([os], [requests], [GeneralLlm],
    [clean_indents], [datetime], [PredictionExtractor], [ReasonedPrediction])
    is a builtin, so only the module's names are looked at.  The namespace is
    a parameter of the embedding and [module_globals] is the one main.py
    builds: the names bound by its import statements (lines 1-22), [logger]
    and [FreeForecaster]. *)

Definition namespace := list str.

Definition bound (g : namespace) (name : str) : bool := existsb (str_eqb name) g.

Definition load_global (g : namespace) (name : str) : M unit :=
  if bound g name then ret tt else raise (NameError name).

Definition module_globals : namespace :=
  [ lit "argparse"; lit "asyncio"; lit "logging"; lit "datetime"; lit "Literal";
    lit "wikipediaapi"; lit "requests";
    lit "BinaryQuestion"; lit "ForecastBot"; lit "GeneralLlm"; lit "MetaculusApi";
    lit "MetaculusQuestion"; lit "MultipleChoiceQuestion"; lit "NumericDistribution";
    lit "NumericQuestion"; lit "PredictedOptionList"; lit "PredictionExtractor";
    lit "ReasonedPrediction"; lit "clean_indents";
    lit "logger"; lit "FreeForecaster" ].

(** ** run_research (main.py, lines 35-54) *)

Record MetaculusQuestion := { question_text : str }.

(** [os.getenv(name)]; [None] and the empty string are both false. *)
Definition getenv (w : World) (name : str) : option str := environ w name.

Definition option_truthy (v : option str) : bool :=
  match v with Some s => truthy s | None => false end.

(** [str(v)], as an f-string field formats it. *)
Definition py_str (w : World) (v : json) : str :=
  match v with
  | JNull => lit "None"
  | JBool true => lit "True"
  | JBool false => lit "False"
  | JNum repr => repr
  | JStr s => s
  | JArr _ | JObj _ => str_of_container w v
  end.

(** [body.get('articles', [])] *)
Definition get_articles (body : json) : result json :=
  match body with
  | JObj d => Ok (match dict_lookup (lit "articles") d with
                  | Some v => v
                  | None => JArr []
                  end)
  | _ => Raise AttributeError
  end.

(** [v[:3]], then the values iterating over the slice yields.  A dict, a
    number, a boolean and [None] cannot be sliced. *)
Definition slice3_items (v : json) : result (list json) :=
  match v with
  | JArr items => Ok (firstn 3 items)
  | JStr s => Ok (map (fun c => JStr [c]) (firstn 3 s))
  | _ => Raise TypeError
  end.

(** [a[key]] for a string key *)
Definition getitem (a : json) (key : str) : result json :=
  match a with
  | JObj d => match dict_lookup key d with
              | Some v => Ok v
              | None => Raise (KeyError key)
              end
  | _ => Raise TypeError
  end.

(** f"- {a['title']} ({a['url']})" *)
Definition bullet (w : World) (a : json) : M str :=
  t <- lift (getitem a (lit "title")) ;;
  u <- lift (getitem a (lit "url")) ;;
  ret (lit "- " ++ py_str w t ++ lit " (" ++ py_str w u ++ lit ")").

Definition news_url (query key : str) : str :=
  lit "https://newsapi.org/v2/everything?q=" ++ query ++ lit "&apiKey=" ++ key.

(** Lines 40-42. *)
Definition wikipedia_step (w : World) (question : MetaculusQuestion)
    (research : list str) : M (list str) :=
  let title := firstn 50 (question_text question) in
  page <- call (EvWikiPage title) (Ok (wiki_page w title)) ;;
  e <- lift (page_exists page) ;;
  if (e : bool) then
    s <- lift (page_summary page) ;;
    ret (research ++ [lit "Wikipedia Summary:" ++ [nl] ++ firstn 1000 s])
  else ret research.

(** Lines 45-52. *)
Definition news_step (g : namespace) (w : World) (question : MetaculusQuestion)
    (research : list str) : M (list str) :=
  _ <- load_global g (lit "os") ;;
  if option_truthy (getenv w (lit "NEWS_API_KEY")) then
    _ <- load_global g (lit "os") ;;
    let key := match getenv w (lit "NEWS_API_KEY") with
               | Some k => k
               | None => lit "None"
               end in
    let url := news_url (firstn 50 (question_text question)) key in
    _ <- load_global g (lit "requests") ;;
    response <- call (EvHttpGet url) (requests_get w url) ;;
    if (status_code response =? 200)%Z then
      body <- lift (response_json response) ;;
      field <- lift (get_articles body) ;;
      articles <- lift (slice3_items field) ;;
      bullets <- mapM (bullet w) articles ;;
      ret (research ++ [lit "News Headlines:" ++ [nl] ++ join [nl] bullets])
    else ret research
  else ret research.

(** Line 54. *)
Definition research_blob (research : list str) : str :=
  match research with
  | [] => lit "No free research available"
  | _ :: _ => join [nl; nl] research
  end.

Definition run_research_in (g : namespace) (w : World)
    (question : MetaculusQuestion) : M str :=
  research <- wikipedia_step w question [] ;;
  research <- news_step g w question research ;;
  ret (research_blob research).

(** The method as main.py defines it. *)
Definition run_research (w : World) (question : MetaculusQuestion) : M str :=
  run_research_in module_globals w question.

(** ** _run_forecast_on_binary (main.py, lines 66-81) *)

Record ReasonedPrediction := {
  prediction_value : Z;      (* in percent *)
  reasoning : str
}.

Definition is_digit (c : N) : bool := (48 <=? c)%N && (c <=? 57)%N.

Definition digit_char (d : N) : N := (48 + d)%N.

(** Decimal digits of [n], most significant first; [fuel] bounds their number. *)
Fixpoint decimal_digits (fuel : nat) (n : N) (acc : str) : str :=
  match fuel with
  | O => acc
  | S fuel' =>
      let acc' := digit_char (n mod 10) :: acc in
      if (n <? 10)%N then acc' else decimal_digits fuel' (n / 10) acc'
  end.

(** "%Y": the year in decimal (four digits from the year 1000 on). *)
Definition fmt_Y (y : N) : str := decimal_digits 20 y [].

(** "%m" and "%d": two digits, zero padded. *)
Definition fmt_2 (n : N) : str := [digit_char ((n / 10) mod 10); digit_char (n mod 10)].

(** [d.strftime("%Y-%m-%d")] *)
Definition strftime_Ymd (d : Date) : str :=
  fmt_Y (year d) ++ lit "-" ++ fmt_2 (month d) ++ lit "-" ++ fmt_2 (day d).

(** [research or "No research conducted"] (line 72) *)
Definition research_or_default (research : str) : str :=
  if truthy research then research else lit "No research conducted".

Definition indent : str := lit "        ".

(** The f-string of lines 68-78, before [clean_indents]. *)
Definition prompt_text (w : World) (question : MetaculusQuestion) (research : str) : str :=
  [nl]
  ++ indent ++ lit "[Simplified free version]" ++ [nl]
  ++ indent ++ lit "Question: " ++ question_text question ++ [nl]
  ++ indent ++ lit "Current Date: " ++ strftime_Ymd (now w) ++ [nl]
  ++ indent ++ lit "Research: " ++ research_or_default research ++ [nl]
  ++ indent ++ [nl]
  ++ indent ++ lit "Analyze and give:" ++ [nl]
  ++ indent ++ lit "1. Key factors affecting outcome" ++ [nl]
  ++ indent ++ lit "2. Most likely outcome (0-100% probability)" ++ [nl]
  ++ indent ++ lit "3. Final answer format: "
            ++ [dquote] ++ lit "Probability: XX%" ++ [dquote] ++ [nl]
  ++ indent.

(** Value of a run of decimal digits. *)
Definition decimal_value (run : str) : Z :=
  fold_left (fun acc c => (10 * acc + (Z.of_N c - 48))%Z) run 0%Z.

(** Modelled from the spec: [PredictionExtractor.extract_last_percentage_value]
    belongs to the forecasting_tools package and is not in main.py.  The spec
    calls its result "the last occurrence of a percentage-shaped value" in the
    response text; a percentage-shaped value is read here as a maximal run of
    decimal digits directly followed by "%".  [percentages_from run s] lists
    the values of all occurrences in [s] from left to right, [run] being the
    digits read just before [s]. *)
Fixpoint percentages_from (run : str) (s : str) : list Z :=
  match s with
  | [] => []
  | c :: s' =>
      if is_digit c then percentages_from (run ++ [c]) s'
      else if (c =? pct)%N then
        match run with
        | [] => percentages_from [] s'
        | _ :: _ => decimal_value run :: percentages_from [] s'
        end
      else percentages_from [] s'
  end.

Definition percentages (s : str) : list Z := percentages_from [] s.

Definition last_opt {A} (xs : list A) : option A :=
  match rev xs with [] => None | x :: _ => Some x end.

(** Modelled from the spec: the last percentage-shaped value of the text; what
    happens when there is none is left to the package (spec, section 4.2). *)
Definition extract_last_percentage_value (w : World) (text : str) : result Z :=
  match last_opt (percentages text) with
  | Some v => Ok v
  | None => on_no_percentage w text
  end.

Definition _run_forecast_on_binary_in (g : namespace) (w : World)
    (question : MetaculusQuestion) (research : str) : M ReasonedPrediction :=
  _ <- load_global g (lit "GeneralLlm") ;;           (* _get_free_llm, line 58 *)
  _ <- load_global g (lit "clean_indents") ;;
  _ <- load_global g (lit "datetime") ;;
  let prompt := clean_indents w (prompt_text w question research) in
  reasoning <- call (EvLlmInvoke prompt) (llm_invoke w prompt) ;;
  _ <- load_global g (lit "PredictionExtractor") ;;
  prediction <- lift (extract_last_percentage_value w reasoning) ;;
  _ <- load_global g (lit "ReasonedPrediction") ;;
  ret {| prediction_value := prediction; reasoning := reasoning |}.

Definition _run_forecast_on_binary (w : World) (question : MetaculusQuestion)
    (research : str) : M ReasonedPrediction :=
  _run_forecast_on_binary_in module_globals w question research.

(** ** Auxiliary definitions of the proofs *)

(** What lines 40-42 leave in [research]. *)
Definition wikipedia_result (w : World) (question : MetaculusQuestion)
    (research : list str) : result (list str) :=
  match page_exists (wiki_page w (firstn 50 (question_text question))) with
  | Ok true =>
      match page_summary (wiki_page w (firstn 50 (question_text question))) with
      | Ok s => Ok (research ++ [lit "Wikipedia Summary:" ++ [nl] ++ firstn 1000 s])
      | Raise e => Raise e
      end
  | Ok false => Ok research
  | Raise e => Raise e
  end.

Definition news_header : str := lit "News Headlines:" ++ [nl].

(** Bullets of articles whose title and url are strings. *)
Definition bullet_line (a : str * str) : str :=
  lit "- " ++ fst a ++ lit " (" ++ snd a ++ lit ")".

(** The text does not end in a digit. *)
Definition ends_without_digit (a : str) : bool :=
  match rev a with
  | [] => true
  | c :: _ => negb (is_digit c)
  end.

(** Some digit of the text is directly followed by "%". *)
Fixpoint has_percentage (s : str) : bool :=
  match s with
  | d :: ((c :: _) as s') => (is_digit d && (c =? pct)%N) || has_percentage s'
  | _ => false
  end.

(** The digits read at the end of [a], after the digits [run]. *)
Definition run_after (run : str) (a : str) : str :=
  fold_left (fun r c => if is_digit c then r ++ [c] else []) a run.

Definition is_yyyy_mm_dd (s : str) : bool :=
  match s with
  | [y1; y2; y3; y4; h1; m1; m2; h2; d1; d2] =>
      is_digit y1 && is_digit y2 && is_digit y3 && is_digit y4
      && (h1 =? 45)%N && is_digit m1 && is_digit m2
      && (h2 =? 45)%N && is_digit d1 && is_digit d2
  | _ => false
  end.

(** A date [datetime.now()] can return, from the year 1000 on. *)
Definition valid_date (d : Date) : bool :=
  (1000 <=? year d)%N && (year d <=? 9999)%N
  && (1 <=? month d)%N && (month d <=? 12)%N
  && (1 <=? day d)%N && (day d <=? 31)%N.

Definition four_digits (s : str) : bool :=
  match s with
  | [a; b; c; d] => is_digit a && is_digit b && is_digit c && is_digit d
  | _ => false
  end.

(** *** The q parameter of a URL *)





(** *** Numerals *)

(** The decimal numeral of [n], for [n] below 10^20. *)
Definition decimal_text (n : N) : str := decimal_digits 20 n [].

(** *** Indentation *)

(** A whitespace character other than the newline. *)
Definition is_blank (c : N) : bool :=
  (((9 <=? c) && (c <=? 13) && negb (c =? 10)) || ((28 <=? c) && (c <=? 32))
   || (c =? 133) || (c =? 160) || (c =? 5760) || ((8192 <=? c) && (c <=? 8202))
   || (c =? 8232) || (c =? 8233) || (c =? 8239) || (c =? 8287) || (c =? 12288))%N.




(** A function that takes away all the blanks at the start of every line. *)
Fixpoint strip_indents_from (at_start : bool) (s : str) : str :=
  match s with
  | [] => []
  | c :: s' =>
      if (c =? nl)%N then c :: strip_indents_from true s'
      else if at_start && is_blank c then strip_indents_from true s'
      else c :: strip_indents_from false s'
  end.

Definition strip_indents (s : str) : str := strip_indents_from true s.

(** An article with a title, a url and the further fields a news service sends. *)
Definition full_article (title url : str) : json :=
  JObj [(lit "source", JObj [(lit "id", JNull); (lit "name", JStr (lit "Example"))]);
        (lit "author", JNull);
        (lit "title", JStr title);
        (lit "description", JStr (lit "..."));
        (lit "url", JStr url);
        (lit "publishedAt", JStr (lit "2025-03-07T00:00:00Z"))].

(** The title and url of an entry of [articles] are the given strings. *)
Definition has_title_url (a : json) (p : str * str) : Prop :=
  getitem a (lit "title") = Ok (JStr (fst p)) /\ getitem a (lit "url") = Ok (JStr (snd p)).

(** ** Sample inputs *)

Definition no_page : WikipediaPage :=
  {| page_exists := Ok false; page_summary := Ok [] |}.

Definition page_with (summary : str) : WikipediaPage :=
  {| page_exists := Ok true; page_summary := Ok summary |}.

Definition sample_date : Date := {| year := 2025; month := 3; day := 7 |}.

(** A world with the given environment, encyclopedia, news server and model. *)
Definition world_of (env : str -> option str) (wiki : str -> WikipediaPage)
    (http : str -> result Response) (llm : str -> result str) : World :=
  {| environ := env;
     wiki_page := wiki;
     requests_get := http;
     str_of_container := fun _ => lit "[...]";
     llm_invoke := llm;
     now := sample_date;
     clean_indents := fun s => s;
     on_no_percentage := fun _ => Raise (External (lit "no percentage")) |}.

Definition env_empty : str -> option str := fun _ => None.

Definition env_key (k : str) : str -> option str :=
  fun name => if str_eqb name (lit "NEWS_API_KEY") then Some k else None.

Definition http_status (code : Z) (body : json) : str -> result Response :=
  fun _ => Ok {| status_code := code; response_json := Ok body |}.

Definition llm_silent : str -> result str := fun _ => Ok [].

Definition article (title url : str) : json :=
  JObj [(lit "title", JStr title); (lit "url", JStr url)].

(** The namespace main.py would build with [import os] added. *)
Definition globals_with_os : namespace := lit "os" :: module_globals.

Definition short_question : MetaculusQuestion :=
  {| question_text := lit "Will X happen by 2025?" |}.

Definition long_question : MetaculusQuestion :=
  {| question_text :=
       lit "Will the global mean temperature of 2030 exceed the record set in 2024?" |}.

Definition five_articles : json :=
  JObj [(lit "status", JStr (lit "ok"));
        (lit "articles",
         JArr [article (lit "a") (lit "u1"); article (lit "b") (lit "u2");
               article (lit "c") (lit "u3"); article (lit "d") (lit "u4");
               article (lit "e") (lit "u5")])].

(** No page, no key. *)
Definition world_nothing : World :=
  world_of env_empty (fun _ => no_page) (http_status 200 five_articles) llm_silent.

(** A page, no key. *)
Definition world_page : World :=
  world_of env_empty (fun _ => page_with (lit "X is ...")) (http_status 200 five_articles)
           llm_silent.

(** No page, a key, a server that answers 404. *)
Definition world_404 : World :=
  world_of (env_key (lit "k")) (fun _ => no_page) (http_status 404 JNull) llm_silent.

(** No page, a key, a server that answers 200 with five articles. *)
Definition world_news : World :=
  world_of (env_key (lit "k")) (fun _ => no_page) (http_status 200 five_articles) llm_silent.

(** No page, a key, a server that answers 200 and an empty [articles] array. *)
Definition world_no_articles : World :=
  world_of (env_key (lit "k")) (fun _ => no_page)
           (http_status 200 (JObj [(lit "articles", JArr [])])) llm_silent.

(** A second question with the same first 50 characters as [long_question]. *)
Definition long_question_b : MetaculusQuestion :=
  {| question_text :=
       lit "Will the global mean temperature of 2030 exceed the 1.5 degree threshold?" |}.

Definition timeout_error : exn := External (lit "timeout").

(** The encyclopedia client fails. *)
Definition world_wiki_down : World :=
  world_of (env_key (lit "k"))
           (fun _ => {| page_exists := Raise timeout_error; page_summary := Ok [] |})
           (http_status 200 five_articles) llm_silent.

(** No page, a key, a news server that cannot be reached. *)
Definition world_http_down : World :=
  world_of (env_key (lit "k")) (fun _ => no_page) (fun _ => Raise timeout_error) llm_silent.

(** The local model cannot be reached. *)
Definition world_llm_down : World :=
  world_of env_empty (fun _ => no_page) (http_status 404 JNull) (fun _ => Raise timeout_error).

(** A first article that has a url and no title. *)
Definition untitled_first : json :=
  JObj [(lit "articles", JArr [JObj [(lit "url", JStr (lit "u1"))];
                               article (lit "b") (lit "u2")])].

Definition world_untitled : World :=
  world_of (env_key (lit "k")) (fun _ => no_page) (http_status 200 untitled_first) llm_silent.

(** A body whose [articles] field is null. *)
Definition world_null_articles : World :=
  world_of (env_key (lit "k")) (fun _ => no_page)
           (http_status 200 (JObj [(lit "articles", JNull)])) llm_silent.

Definition sample_response : str :=
  lit "Base rate is 20%, recent news push it up. Probability: 73%".

Definition world_forecast : World :=
  world_of env_empty (fun _ => no_page) (http_status 404 JNull) (fun _ => Ok sample_response).

(** A question whose first 50 characters hold an ampersand. *)
Definition sp_question : MetaculusQuestion :=
  {| question_text :=
       lit "Will the S&P 500 index close above 6000 points at the end of 2025?" |}.

(** A world whose [clean_indents] strips the indentation of every line. *)
Definition world_stripping : World :=
  {| environ := env_empty;
     wiki_page := fun _ => no_page;
     requests_get := http_status 404 JNull;
     str_of_container := fun _ => lit "[...]";
     llm_invoke := fun _ => Ok sample_response;
     now := sample_date;
     clean_indents := strip_indents;
     on_no_percentage := fun _ => Raise (External (lit "no percentage")) |}.

(** Five articles as a news service sends them. *)
Definition five_full_articles : json :=
  JObj [(lit "status", JStr (lit "ok")); (lit "totalResults", JNum (lit "5"));
        (lit "articles",
         JArr [full_article (lit "a") (lit "u1"); full_article (lit "b") (lit "u2");
               full_article (lit "c") (lit "u3"); full_article (lit "d") (lit "u4");
               full_article (lit "e") (lit "u5")])].

(** A page and a key, a server that answers 200 with five such articles. *)
Definition world_both_full : World :=
  world_of (env_key (lit "k")) (fun _ => page_with (lit "X is ..."))
           (http_status 200 five_full_articles) llm_silent.

(** Three such articles followed by entries that are not articles. *)
Definition three_full_then_junk : json :=
  JObj [(lit "articles",
         JArr [full_article (lit "a") (lit "u1"); full_article (lit "b") (lit "u2");
               full_article (lit "c") (lit "u3"); JNull; JNum (lit "4")])].

Definition world_full_junk_tail : World :=
  world_of (env_key (lit "k")) (fun _ => no_page) (http_status 200 three_full_then_junk)
           llm_silent.

(** * Properties *)

(** ** The effect monad *)

Lemma bind_ok {A B} (t : list event) (a : A) (k : A -> M B) :
  bind (t, Ok a) k = (t ++ trace (k a), outcome (k a)).
Proof. unfold bind, trace, outcome. destruct (k a); reflexivity. Qed.

Lemma bind_raise {A B} (t : list event) (e : exn) (k : A -> M B) :
  bind (t, Raise e) k = (t, Raise e).
Proof. reflexivity. Qed.

Lemma bind_lift_ok {A B} (a : A) (k : A -> M B) : bind (lift (Ok a)) k = k a.
Proof. unfold lift. rewrite bind_ok. destruct (k a); reflexivity. Qed.

Lemma bind_ret {A B} (a : A) (k : A -> M B) : bind (ret a) k = k a.
Proof. apply bind_lift_ok. Qed.

Lemma trace_bind_prefix {A B} (m : M A) (k : A -> M B) :
  exists rest, trace (bind m k) = trace m ++ rest.
Proof.
  destruct m as [t [a | e]].
  - rewrite bind_ok. now exists (trace (k a)).
  - exists []. cbn. now rewrite app_nil_r.
Qed.

Lemma outcome_bind_ok {A B} (m : M A) (k : A -> M B) (b : B) :
  outcome (bind m k) = Ok b ->
  exists a, outcome m = Ok a /\ outcome (k a) = Ok b /\
            trace (bind m k) = trace m ++ trace (k a).
Proof.
  destruct m as [t [a | e]].
  - rewrite bind_ok. cbn. intros H. now exists a.
  - cbn. discriminate.
Qed.

(** A computation made of [lift]s and [ret]s calls nobody. *)
Lemma mapM_bullet_trace (w : World) (xs : list json) :
  trace (mapM (bullet w) xs) = [].
Proof.
  induction xs as [| x xs IH]; [reflexivity |].
  cbn [mapM]. unfold bullet at 1.
  destruct (getitem x (lit "title")) as [t | e]; [| reflexivity].
  rewrite bind_lift_ok.
  destruct (getitem x (lit "url")) as [u | e]; [| reflexivity].
  rewrite bind_lift_ok, bind_ret.
  destruct (mapM (bullet w) xs) as [tr [ys | e]]; cbn in IH |- *; now subst.
Qed.

(** ** Global names of main.py *)

Lemma os_not_imported : bound module_globals (lit "os") = false.
Proof. reflexivity. Qed.

Lemma requests_imported : bound module_globals (lit "requests") = true.
Proof. reflexivity. Qed.

Lemma load_global_bound (g : namespace) (name : str) :
  bound g name = true -> load_global g name = ret tt.
Proof. unfold load_global. now intros ->. Qed.

Lemma load_global_unbound (g : namespace) (name : str) :
  bound g name = false -> load_global g name = raise (NameError name).
Proof. unfold load_global. now intros ->. Qed.

(** ** run_research *)

Section RunResearch.

Variable w : World.
Variable question : MetaculusQuestion.

Let title := firstn 50 (question_text question).

Lemma wikipedia_step_eq (research : list str) :
  wikipedia_step w question research = ([EvWikiPage title], wikipedia_result w question research).
Proof.
  unfold wikipedia_step, wikipedia_result, call. fold title.
  rewrite bind_ok.
  destruct (page_exists (wiki_page w title)) as [[|] | e]; cbn -[firstn lit];
    try reflexivity.
  destruct (page_summary (wiki_page w title)); reflexivity.
Qed.

Lemma news_step_unbound (g : namespace) (research : list str) :
  bound g (lit "os") = false ->
  news_step g w question research = ([], Raise (NameError (lit "os"))).
Proof. intros H. unfold news_step. now rewrite (load_global_unbound _ _ H). Qed.

(** With [os] unbound the method stops at line 45, after the encyclopedia
    lookup and before any news call. *)
Lemma run_research_in_unbound (g : namespace) :
  bound g (lit "os") = false ->
  run_research_in g w question =
    ([EvWikiPage title],
     match wikipedia_result w question [] with
     | Ok _ => Raise (NameError (lit "os"))
     | Raise e => Raise e
     end).
Proof.
  intros H. unfold run_research_in. rewrite wikipedia_step_eq.
  destruct (wikipedia_result w question []) as [r | e]; [| reflexivity].
  rewrite bind_ok, news_step_unbound by exact H. reflexivity.
Qed.

Lemma run_research_eq :
  run_research w question =
    ([EvWikiPage title],
     match wikipedia_result w question [] with
     | Ok _ => Raise (NameError (lit "os"))
     | Raise e => Raise e
     end).
Proof. apply run_research_in_unbound, os_not_imported. Qed.

End RunResearch.

(** ** The news step *)

Section NewsStep.

Variable g : namespace.
Variable w : World.
Variable question : MetaculusQuestion.

Let title := firstn 50 (question_text question).

Lemma news_step_no_key (research : list str) :
  bound g (lit "os") = true ->
  option_truthy (getenv w (lit "NEWS_API_KEY")) = false ->
  news_step g w question research = ([], Ok research).
Proof.
  intros Hos Hkey. unfold news_step.
  rewrite (load_global_bound _ _ Hos), bind_ret, Hkey. reflexivity.
Qed.

(** Lines 45-47 with both names bound and a key in the environment: the GET
    is issued, and lines 48-52 run on its response. *)
Lemma news_step_key (research : list str) (k : str) :
  bound g (lit "os") = true ->
  bound g (lit "requests") = true ->
  getenv w (lit "NEWS_API_KEY") = Some k ->
  truthy k = true ->
  news_step g w question research =
    (response <- call (EvHttpGet (news_url title k)) (requests_get w (news_url title k)) ;;
     if (status_code response =? 200)%Z then
       body <- lift (response_json response) ;;
       field <- lift (get_articles body) ;;
       articles <- lift (slice3_items field) ;;
       bullets <- mapM (bullet w) articles ;;
       ret (research ++ [lit "News Headlines:" ++ [nl] ++ join [nl] bullets])
     else ret research).
Proof.
  intros Hos Hreq Hkey Hk. unfold news_step.
  rewrite (load_global_bound _ _ Hos), (load_global_bound _ _ Hreq), !bind_ret, Hkey.
  cbn [option_truthy]. rewrite Hk. reflexivity.
Qed.

Lemma news_step_non_200 (research : list str) (k : str) (resp : Response) :
  bound g (lit "os") = true ->
  bound g (lit "requests") = true ->
  getenv w (lit "NEWS_API_KEY") = Some k ->
  truthy k = true ->
  requests_get w (news_url title k) = Ok resp ->
  status_code resp <> 200%Z ->
  news_step g w question research = ([EvHttpGet (news_url title k)], Ok research).
Proof.
  intros Hos Hreq Hkey Hk Hget Hst.
  rewrite (news_step_key research Hos Hreq Hkey Hk), Hget.
  unfold call. rewrite bind_ok.
  apply Z.eqb_neq in Hst. rewrite Hst. reflexivity.
Qed.

Lemma news_step_200 (research : list str) (k : str) (resp : Response)
    (body field : json) (articles : list json) (bullets : list str) :
  bound g (lit "os") = true ->
  bound g (lit "requests") = true ->
  getenv w (lit "NEWS_API_KEY") = Some k ->
  truthy k = true ->
  requests_get w (news_url title k) = Ok resp ->
  status_code resp = 200%Z ->
  response_json resp = Ok body ->
  get_articles body = Ok field ->
  slice3_items field = Ok articles ->
  outcome (mapM (bullet w) articles) = Ok bullets ->
  news_step g w question research =
    ([EvHttpGet (news_url title k)], Ok (research ++ [news_header ++ join [nl] bullets])).
Proof.
  intros Hos Hreq Hkey Hk Hget Hst Hbody Hfield Hitems Hbul.
  rewrite (news_step_key research Hos Hreq Hkey Hk), Hget.
  unfold call. rewrite bind_ok, Hst. cbn [Z.eqb Pos.eqb].
  rewrite Hbody, bind_lift_ok, Hfield, bind_lift_ok, Hitems, bind_lift_ok.
  pose proof (mapM_bullet_trace w articles) as Htr.
  destruct (mapM (bullet w) articles) as [tr [bs | e]]; cbn in Hbul, Htr; [| discriminate].
  injection Hbul as ->. subst tr. reflexivity.
Qed.

(** Every call the news step makes is a GET of the news URL built from the
    truncated question text. *)
Lemma news_step_trace (research : list str) (ev : event) :
  In ev (trace (news_step g w question research)) ->
  exists key, ev = EvHttpGet (news_url title key).
Proof.
  unfold news_step. fold title.
  destruct (bound g (lit "os")) eqn:Hos.
  2:{ rewrite (load_global_unbound _ _ Hos). cbn. tauto. }
  rewrite (load_global_bound _ _ Hos), !bind_ret.
  destruct (option_truthy (getenv w (lit "NEWS_API_KEY"))); [| cbn; tauto].
  set (key := match getenv w (lit "NEWS_API_KEY") with Some k => k | None => lit "None" end).
  destruct (bound g (lit "requests")) eqn:Hreq.
  2:{ rewrite (load_global_unbound _ _ Hreq). cbn. tauto. }
  rewrite (load_global_bound _ _ Hreq), bind_ret.
  unfold call.
  destruct (requests_get w (news_url title key)) as [resp | e].
  2:{ cbn. intros [<- | []]. now exists key. }
  rewrite bind_ok.
  match goal with |- In ev (trace (?t, _)) -> _ =>
    assert (Ht : t = [EvHttpGet (news_url title key)]) end.
  { destruct (status_code resp =? 200)%Z; [| reflexivity].
    destruct (response_json resp) as [body | e]; [| reflexivity].
    rewrite bind_lift_ok.
    destruct (get_articles body) as [field | e]; [| reflexivity].
    rewrite bind_lift_ok.
    destruct (slice3_items field) as [articles | e]; [| reflexivity].
    rewrite bind_lift_ok.
    pose proof (mapM_bullet_trace w articles) as Htr.
    destruct (mapM (bullet w) articles) as [tr [bs | e]]; cbn in Htr; subst tr; reflexivity. }
  rewrite Ht. cbn [trace fst]. intros [<- | []]. now exists key.
Qed.

Lemma mapM_bullet_length (xs : list json) (bullets : list str) :
  outcome (mapM (bullet w) xs) = Ok bullets -> length bullets = length xs.
Proof.
  revert bullets. induction xs as [| x xs IH]; intros bullets.
  - cbn. now intros [= <-].
  - cbn [mapM]. intros H.
    apply outcome_bind_ok in H as (b & _ & H & _).
    apply outcome_bind_ok in H as (bs & Hbs & H & _).
    cbn in H. injection H as <-. cbn. f_equal. now apply IH.
Qed.

Lemma slice3_items_length (field : json) (articles : list json) :
  slice3_items field = Ok articles -> length articles <= 3.
Proof.
  destruct field; unfold slice3_items; try discriminate; intros [= <-].
  - destruct s as [| ? [| ? [| ? ?]]]; cbn; lia.
  - destruct items as [| ? [| ? [| ? ?]]]; cbn; lia.
Qed.

(** What a normal return of the news step leaves in [research]: the list
    unchanged, or one more section of at most three bullets. *)
Lemma news_step_ok (research r : list str) :
  outcome (news_step g w question research) = Ok r ->
  r = research \/
  exists bullets, length bullets <= 3 /\ r = research ++ [news_header ++ join [nl] bullets].
Proof.
  unfold news_step. intros H.
  apply outcome_bind_ok in H as ([] & _ & H & _).
  destruct (option_truthy (getenv w (lit "NEWS_API_KEY")));
    [| cbn in H; injection H as <-; now left].
  apply outcome_bind_ok in H as ([] & _ & H & _).
  apply outcome_bind_ok in H as ([] & _ & H & _).
  apply outcome_bind_ok in H as (resp & _ & H & _).
  destruct (status_code resp =? 200)%Z; [| cbn in H; injection H as <-; now left].
  apply outcome_bind_ok in H as (body & _ & H & _).
  apply outcome_bind_ok in H as (field & _ & H & _).
  apply outcome_bind_ok in H as (articles & Hitems & H & _).
  apply outcome_bind_ok in H as (bullets & Hbul & H & _).
  cbn in H. injection H as <-. right. exists bullets. split; [| reflexivity].
  rewrite (mapM_bullet_length _ Hbul).
  cbn in Hitems. now apply slice3_items_length with (field := field).
Qed.

End NewsStep.

(** ** The whole method, in any namespace *)

Section RunResearchIn.

Variable g : namespace.
Variable w : World.
Variable question : MetaculusQuestion.

Let title := firstn 50 (question_text question).

Lemma run_research_in_trace :
  trace (run_research_in g w question) =
    EvWikiPage title ::
    match wikipedia_result w question [] with
    | Ok r => trace (news_step g w question r)
    | Raise _ => []
    end.
Proof.
  unfold run_research_in. rewrite wikipedia_step_eq. fold title.
  destruct (wikipedia_result w question []) as [r | e]; [| reflexivity].
  rewrite bind_ok. cbn [trace fst app]. f_equal.
  destruct (news_step g w question r) as [t [r' | e]]; cbn; [| reflexivity].
  now rewrite app_nil_r.
Qed.

Lemma run_research_in_ok (blob : str) :
  outcome (run_research_in g w question) = Ok blob ->
  exists r r', wikipedia_result w question [] = Ok r /\
               outcome (news_step g w question r) = Ok r' /\
               blob = research_blob r'.
Proof.
  unfold run_research_in. rewrite wikipedia_step_eq. intros H.
  apply outcome_bind_ok in H as (r & Hr & H & _).
  apply outcome_bind_ok in H as (r' & Hr' & H & _).
  cbn in Hr, H. injection H as <-. now exists r, r'.
Qed.

(** When both steps return, so does the method, with the blob of line 54. *)
Lemma run_research_in_returns (r r' : list str) (t : list event) :
  wikipedia_result w question [] = Ok r ->
  news_step g w question r = (t, Ok r') ->
  run_research_in g w question = (EvWikiPage title :: t, Ok (research_blob r')).
Proof.
  intros Hr Hn. unfold run_research_in. rewrite wikipedia_step_eq, Hr. fold title.
  rewrite bind_ok, Hn, bind_ok. cbn. now rewrite app_nil_r.
Qed.

End RunResearchIn.

Lemma join_nonempty (sep x : str) (xs : list str) :
  x <> [] -> join sep (x :: xs) <> [].
Proof. destruct x; [congruence |]. destruct xs; discriminate. Qed.

Lemma wikipedia_result_shape (w : World) (question : MetaculusQuestion) (r : list str) :
  wikipedia_result w question [] = Ok r ->
  r = [] \/
  exists s, page_summary (wiki_page w (firstn 50 (question_text question))) = Ok s /\
            r = [lit "Wikipedia Summary:" ++ [nl] ++ firstn 1000 s].
Proof.
  unfold wikipedia_result.
  destruct (page_exists _) as [[|] | e]; try discriminate.
  - destruct (page_summary _) as [s | e]; [| discriminate].
    intros [= <-]. right. now exists s.
  - intros [= <-]. now left.
Qed.

(** ** Behaviour in a namespace that binds [os] and [requests]

    What lines 45-54 compute once the name [os] resolves. *)

Section WithOs.

Variable g : namespace.
Variable w : World.
Variable question : MetaculusQuestion.
Hypothesis os_bound : bound g (lit "os") = true.
Hypothesis requests_bound : bound g (lit "requests") = true.

Let title := firstn 50 (question_text question).

Lemma with_os_placeholder :
  page_exists (wiki_page w title) = Ok false ->
  option_truthy (getenv w (lit "NEWS_API_KEY")) = false \/
  (exists k resp, getenv w (lit "NEWS_API_KEY") = Some k /\ truthy k = true /\
                  requests_get w (news_url title k) = Ok resp /\
                  status_code resp <> 200%Z) ->
  outcome (run_research_in g w question) = Ok (lit "No free research available").
Proof.
  intros Hpage Hnews.
  assert (Hr : wikipedia_result w question [] = Ok []).
  { unfold wikipedia_result. fold title. now rewrite Hpage. }
  destruct Hnews as [Hkey | (k & resp & Hkey & Hk & Hget & Hst)].
  - now rewrite (@run_research_in_returns g w question _ _ _ Hr (@news_step_no_key g w question [] os_bound Hkey)).
  - now rewrite (@run_research_in_returns g w question _ _ _ Hr
                   (@news_step_non_200 g w question [] k resp os_bound requests_bound
                      Hkey Hk Hget Hst)).
Qed.

Lemma with_os_wikipedia_section (s blob : str) :
  page_exists (wiki_page w title) = Ok true ->
  page_summary (wiki_page w title) = Ok s ->
  outcome (run_research_in g w question) = Ok blob ->
  length (firstn 1000 s) <= 1000 /\
  (blob = lit "Wikipedia Summary:" ++ [nl] ++ firstn 1000 s \/
   exists news, blob = lit "Wikipedia Summary:" ++ [nl] ++ firstn 1000 s ++ [nl; nl] ++ news).
Proof.
  intros Hpage Hsum H. split; [rewrite length_firstn; lia |].
  apply run_research_in_ok in H as (r & r' & Hr & Hn & ->).
  unfold wikipedia_result in Hr. fold title in Hr. rewrite Hpage, Hsum in Hr.
  remember (firstn 1000 s) as text eqn:Etext in *.
  remember (lit "Wikipedia Summary:") as header eqn:Eheader in *.
  injection Hr as <-.
  apply news_step_ok in Hn as [-> | (bullets & _ & ->)].
  - left. reflexivity.
  - right. exists (news_header ++ join [nl] bullets).
    cbn [app research_blob join]. rewrite <- app_assoc. reflexivity.
Qed.

Lemma with_os_empty_articles (k : str) (resp : Response) (d : list (str * json)) :
  page_exists (wiki_page w title) = Ok false ->
  getenv w (lit "NEWS_API_KEY") = Some k ->
  truthy k = true ->
  requests_get w (news_url title k) = Ok resp ->
  status_code resp = 200%Z ->
  response_json resp = Ok (JObj d) ->
  dict_lookup (lit "articles") d = None \/ dict_lookup (lit "articles") d = Some (JArr []) ->
  outcome (run_research_in g w question) = Ok (lit "News Headlines:" ++ [nl]).
Proof.
  intros Hpage Hkey Hk Hget Hst Hbody Hart.
  assert (Hr : wikipedia_result w question [] = Ok []).
  { unfold wikipedia_result. fold title. now rewrite Hpage. }
  assert (Hfield : get_articles (JObj d) = Ok (JArr [])).
  { unfold get_articles. now destruct Hart as [-> | ->]. }
  now rewrite (@run_research_in_returns g w question _ _ _ Hr
                 (@news_step_200 g w question [] k resp (JObj d) (JArr []) [] []
                    os_bound requests_bound Hkey Hk Hget Hst Hbody Hfield
                    eq_refl eq_refl)).
Qed.

End WithOs.

Lemma mapM_bullet_articles (w : World) (arts : list (str * str)) :
  mapM (bullet w) (map (fun a => article (fst a) (snd a)) arts) =
    ([], Ok (map bullet_line arts)).
Proof.
  induction arts as [| [t u] arts IH]; [reflexivity |].
  cbn [map mapM fst snd]. rewrite IH. reflexivity.
Qed.

Lemma with_os_news_section (g : namespace) (w : World) (question : MetaculusQuestion)
    (research : list str) (k : str) (resp : Response) (d : list (str * json))
    (arts : list (str * str)) :
  bound g (lit "os") = true ->
  bound g (lit "requests") = true ->
  getenv w (lit "NEWS_API_KEY") = Some k ->
  truthy k = true ->
  requests_get w (news_url (firstn 50 (question_text question)) k) = Ok resp ->
  status_code resp = 200%Z ->
  response_json resp = Ok (JObj d) ->
  dict_lookup (lit "articles") d = Some (JArr (map (fun a => article (fst a) (snd a)) arts)) ->
  length (firstn 3 arts) <= 3 /\
  outcome (news_step g w question research) =
    Ok (research ++ [news_header ++ join [nl] (map bullet_line (firstn 3 arts))]).
Proof.
  intros Hos Hreq Hkey Hk Hget Hst Hbody Hart.
  split; [rewrite length_firstn; lia |].
  erewrite news_step_200; eauto.
  - reflexivity.
  - unfold get_articles. rewrite Hart. reflexivity.
  - unfold slice3_items. rewrite firstn_map. reflexivity.
  - now rewrite mapM_bullet_articles.
Qed.

(** ** Sample runs *)

(** With [import os] the sample runs return what the spec describes. *)
Example with_os_run_nothing :
  outcome (run_research_in globals_with_os world_nothing short_question)
  = Ok (lit "No free research available").
Proof. vm_compute. reflexivity. Qed.

Example with_os_run_page :
  outcome (run_research_in globals_with_os world_page short_question)
  = Ok (lit "Wikipedia Summary:" ++ [nl] ++ lit "X is ...").
Proof. vm_compute. reflexivity. Qed.

Example with_os_run_news :
  outcome (run_research_in globals_with_os world_news short_question)
  = Ok (lit "News Headlines:" ++ [nl] ++ lit "- a (u1)" ++ [nl] ++ lit "- b (u2)"
        ++ [nl] ++ lit "- c (u3)").
Proof. vm_compute. reflexivity. Qed.

Example with_os_run_404 :
  run_research_in globals_with_os world_404 short_question
  = ([EvWikiPage (lit "Will X happen by 2025?");
      EvHttpGet (lit "https://newsapi.org/v2/everything?q=Will X happen by 2025?&apiKey=k")],
     Ok (lit "No free research available")).
Proof. vm_compute. reflexivity. Qed.

Example with_os_run_no_articles :
  outcome (run_research_in globals_with_os world_no_articles short_question)
  = Ok (lit "News Headlines:" ++ [nl]).
Proof. vm_compute. reflexivity. Qed.

(** ** _run_forecast_on_binary *)

Lemma run_forecast_eq (w : World) (question : MetaculusQuestion) (research : str) :
  _run_forecast_on_binary w question research =
    let prompt := clean_indents w (prompt_text w question research) in
    ([EvLlmInvoke prompt],
     match llm_invoke w prompt with
     | Ok reasoning =>
         match extract_last_percentage_value w reasoning with
         | Ok v => Ok {| prediction_value := v; reasoning := reasoning |}
         | Raise e => Raise e
         end
     | Raise e => Raise e
     end).
Proof.
  unfold _run_forecast_on_binary, _run_forecast_on_binary_in.
  rewrite !load_global_bound by reflexivity. rewrite !bind_ret.
  cbv zeta. unfold call.
  destruct (llm_invoke w _) as [reasoning | e]; [| reflexivity].
  rewrite bind_ok.
  destruct (extract_last_percentage_value w reasoning) as [v | e]; reflexivity.
Qed.

(** *** Percentages in a text *)

Lemma percentages_from_app (a s run : str) :
  percentages_from run (a ++ s)
  = percentages_from run a ++ percentages_from (run_after run a) s.
Proof.
  revert run. induction a as [| c a IH]; intros run; [reflexivity |].
  cbn [app percentages_from run_after fold_left].
  destruct (is_digit c); [apply IH |].
  destruct (c =? pct)%N; [| apply IH].
  destruct run; [apply IH |]. cbn [app]. f_equal. apply IH.
Qed.

Lemma run_after_ends_without_digit (a : str) :
  ends_without_digit a = true -> run_after [] a = [].
Proof.
  unfold ends_without_digit, run_after.
  destruct (rev a) as [| c r] eqn:E.
  - apply (f_equal (@rev N)) in E. rewrite rev_involutive in E. now subst.
  - apply (f_equal (@rev N)) in E. rewrite rev_involutive in E. subst a.
    cbn [rev]. rewrite fold_left_app. cbn [fold_left].
    now destruct (is_digit c).
Qed.

Lemma percentages_from_digits (ds b run : str) :
  forallb is_digit ds = true ->
  run ++ ds <> [] ->
  percentages_from run (ds ++ pct :: b)
  = decimal_value (run ++ ds) :: percentages_from [] b.
Proof.
  revert run. induction ds as [| d ds IH]; intros run Hd Hne.
  - rewrite app_nil_r in *. cbn [app percentages_from].
    change (is_digit pct) with false. rewrite N.eqb_refl.
    destruct run; [congruence | reflexivity].
  - cbn [forallb] in Hd. apply andb_prop in Hd as [Hd Hds].
    cbn [app percentages_from]. rewrite Hd, IH; trivial.
    + now rewrite <- app_assoc.
    + destruct run; discriminate.
Qed.

Lemma percentages_from_none (b run : str) :
  has_percentage b = false ->
  run = [] \/ (forall b', b <> pct :: b') ->
  percentages_from run b = [].
Proof.
  revert run. induction b as [| c b IH]; intros run Hb Hrun; [reflexivity |].
  assert (Hb' : has_percentage b = false).
  { cbn [has_percentage] in Hb. destruct b; [reflexivity |].
    now apply orb_false_elim in Hb. }
  cbn [percentages_from].
  destruct (is_digit c) eqn:Hc.
  - apply IH; [exact Hb' |]. right. intros b' ->.
    cbn [has_percentage] in Hb. rewrite Hc, N.eqb_refl in Hb. discriminate.
  - destruct (c =? pct)%N eqn:Hp.
    + apply N.eqb_eq in Hp. subst c.
      destruct Hrun as [-> | Hrun]; [| now elim (Hrun b)].
      apply IH; [exact Hb' | now left].
    + apply IH; [exact Hb' | now left].
Qed.

Lemma last_opt_snoc {A} (xs : list A) (x : A) : last_opt (xs ++ [x]) = Some x.
Proof. unfold last_opt. now rewrite rev_app_distr. Qed.

(** The last occurrence wins: a run of digits followed by "%", with no digit
    before it and no occurrence after it, is the value extracted. *)
Lemma extract_last_percentage_value_last (w : World) (a ds b : str) :
  ds <> [] ->
  forallb is_digit ds = true ->
  ends_without_digit a = true ->
  has_percentage b = false ->
  extract_last_percentage_value w (a ++ ds ++ [pct] ++ b) = Ok (decimal_value ds).
Proof.
  intros Hne Hds Ha Hb. unfold extract_last_percentage_value, percentages.
  rewrite percentages_from_app, (@run_after_ends_without_digit a Ha).
  cbn [app]. rewrite percentages_from_digits by (trivial; now destruct ds).
  rewrite (@percentages_from_none b []) by (trivial; now left).
  cbn [app]. now rewrite last_opt_snoc.
Qed.

(** *** The date *)

Lemma fmt_Y_four_digits (y : N) :
  (1000 <= y <= 9999)%N -> four_digits (fmt_Y y) = true.
Proof.
  intros Hy.
  assert (Hall : forallb (fun n => four_digits (fmt_Y (N.of_nat n))) (seq 1000 (9 * 1000)) = true)
    by (vm_compute; reflexivity).
  rewrite forallb_forall in Hall.
  specialize (Hall (N.to_nat y)). rewrite N2Nat.id in Hall.
  apply Hall, in_seq. lia.
Qed.

Lemma is_digit_digit_char (d : N) : (d < 10)%N -> is_digit (digit_char d) = true.
Proof.
  intros Hd. unfold is_digit, digit_char.
  apply andb_true_intro. split; apply N.leb_le; lia.
Qed.

Lemma strftime_Ymd_shape (d : Date) :
  valid_date d = true -> is_yyyy_mm_dd (strftime_Ymd d) = true.
Proof.
  unfold valid_date. intros H.
  repeat (apply andb_prop in H as [H ?]).
  assert (Hy : four_digits (fmt_Y (year d)) = true).
  { apply fmt_Y_four_digits. split; now apply N.leb_le. }
  unfold strftime_Ymd, fmt_2.
  destruct (fmt_Y (year d)) as [| y1 [| y2 [| y3 [| y4 [| ? ?]]]]]; try discriminate.
  cbn [four_digits] in Hy. cbn -[is_digit N.div N.modulo digit_char].
  rewrite Hy.
  rewrite !is_digit_digit_char by (apply N.mod_lt; discriminate).
  reflexivity.
Qed.

Unset Implicit Arguments.

(** ** Calls made by run_research *)

Lemma EvHttpGet_inj (a b : str) : EvHttpGet a = EvHttpGet b -> a = b.
Proof. now intros [= ->]. Qed.

Lemma after_get_trace (w : World) (research : list str) (resp : Response) :
  trace (if (status_code resp =? 200)%Z then
           body <- lift (response_json resp) ;;
           field <- lift (get_articles body) ;;
           articles <- lift (slice3_items field) ;;
           bullets <- mapM (bullet w) articles ;;
           ret (research ++ [lit "News Headlines:" ++ [nl] ++ join [nl] bullets])
         else ret research) = [].
Proof.
  destruct (status_code resp =? 200)%Z; [| reflexivity].
  destruct (response_json resp) as [body | e]; [| reflexivity].
  rewrite bind_lift_ok.
  destruct (get_articles body) as [field | e]; [| reflexivity].
  rewrite bind_lift_ok.
  destruct (slice3_items field) as [articles | e]; [| reflexivity].
  rewrite bind_lift_ok.
  pose proof (mapM_bullet_trace w articles) as Htr.
  destruct (mapM (bullet w) articles) as [tr [bs | e]]; cbn in Htr; subst tr; reflexivity.
Qed.

Lemma bind_call_trace {A B} (ev : event) (r : result A) (k : A -> M B) :
  (forall a, trace (k a) = []) -> trace (bind (call ev r) k) = [ev].
Proof.
  intros Hk. unfold call. destruct r as [a | e]; [| reflexivity].
  rewrite bind_ok. cbn [trace fst]. now rewrite Hk.
Qed.

(** The news step calls nobody, or makes the one GET; the GET needs both
    names bound and a non-empty key. *)
Lemma news_step_trace_cases (g : namespace) (w : World) (question : MetaculusQuestion)
    (research : list str) :
  trace (news_step g w question research) = [] \/
  (bound g (lit "os") = true /\ bound g (lit "requests") = true /\
   exists k, getenv w (lit "NEWS_API_KEY") = Some k /\ truthy k = true /\
             trace (news_step g w question research)
             = [EvHttpGet (news_url (firstn 50 (question_text question)) k)]).
Proof.
  destruct (bound g (lit "os")) eqn:Hos.
  2:{ left. now rewrite (@news_step_unbound w question g research Hos). }
  destruct (getenv w (lit "NEWS_API_KEY")) as [k |] eqn:Hkey.
  2:{ left. rewrite (@news_step_no_key g w question research Hos); [reflexivity |].
      now rewrite Hkey. }
  destruct (truthy k) eqn:Hk.
  2:{ left. rewrite (@news_step_no_key g w question research Hos); [reflexivity |].
      now rewrite Hkey. }
  destruct (bound g (lit "requests")) eqn:Hreq.
  - right. split; [reflexivity |]. split; [reflexivity |].
    exists k. split; [reflexivity |]. split; [exact Hk |].
    rewrite (@news_step_key g w question research k Hos Hreq Hkey Hk).
    apply bind_call_trace. intros resp. apply after_get_trace.
  - left. unfold news_step.
    rewrite (load_global_bound _ _ Hos), (load_global_unbound _ _ Hreq), !bind_ret, Hkey.
    cbn [option_truthy]. rewrite Hk. reflexivity.
Qed.

Lemma run_research_in_raises (g : namespace) (w : World) (question : MetaculusQuestion)
    (r : list str) (t : list event) (e : exn) :
  wikipedia_result w question [] = Ok r ->
  news_step g w question r = (t, Raise e) ->
  run_research_in g w question
  = (EvWikiPage (firstn 50 (question_text question)) :: t, Raise e).
Proof.
  intros Hr Hn. unfold run_research_in. rewrite wikipedia_step_eq, Hr.
  rewrite bind_ok, Hn. reflexivity.
Qed.

(** ** The q parameter of the news URL *)





(** ** Bullets *)

(** [b] is the bullet line of the entry [a]: its title and its url, as
    [str()] prints them. *)
Definition is_bullet_of (w : World) (a : json) (b : str) : Prop :=
  exists t u, getitem a (lit "title") = Ok t /\ getitem a (lit "url") = Ok u /\
              b = lit "- " ++ py_str w t ++ lit " (" ++ py_str w u ++ lit ")".

Lemma mapM_bullet_ok (w : World) (xs : list json) (bs : list str) :
  outcome (mapM (bullet w) xs) = Ok bs -> Forall2 (is_bullet_of w) xs bs.
Proof.
  revert bs. induction xs as [| x xs IH]; intros bs.
  - cbn. intros [= <-]. constructor.
  - cbn [mapM]. intros H.
    apply outcome_bind_ok in H as (b & Hb & H & _).
    apply outcome_bind_ok in H as (bs' & Hbs & H & _).
    cbn in H. injection H as <-. constructor; [| now apply IH].
    unfold bullet in Hb.
    apply outcome_bind_ok in Hb as (t & Ht & Hb & _).
    apply outcome_bind_ok in Hb as (u & Hu & Hb & _).
    cbn in Ht, Hu, Hb. injection Hb as <-. now exists t, u.
Qed.

(** What a normal return of the news step has added: nothing, or the
    section made from the answer to the GET. *)
Lemma news_step_ok_section (g : namespace) (w : World) (question : MetaculusQuestion)
    (research r : list str) :
  outcome (news_step g w question research) = Ok r ->
  r = research \/
  exists k resp body field items bullets,
    requests_get w (news_url (firstn 50 (question_text question)) k) = Ok resp /\
    status_code resp = 200%Z /\
    response_json resp = Ok body /\
    get_articles body = Ok field /\
    slice3_items field = Ok items /\
    Forall2 (is_bullet_of w) items bullets /\
    r = research ++ [lit "News Headlines:" ++ [nl] ++ join [nl] bullets].
Proof.
  unfold news_step. intros H.
  apply outcome_bind_ok in H as ([] & _ & H & _).
  destruct (getenv w (lit "NEWS_API_KEY")) as [k |];
    [| cbn in H; injection H as <-; now left].
  cbn [option_truthy] in H.
  destruct (truthy k); [| cbn in H; injection H as <-; now left].
  apply outcome_bind_ok in H as ([] & _ & H & _).
  apply outcome_bind_ok in H as ([] & _ & H & _).
  apply outcome_bind_ok in H as (resp & Hget & H & _).
  destruct (status_code resp =? 200)%Z eqn:Hst;
    [| cbn in H; injection H as <-; now left].
  apply outcome_bind_ok in H as (body & Hbody & H & _).
  apply outcome_bind_ok in H as (field & Hfield & H & _).
  apply outcome_bind_ok in H as (items & Hitems & H & _).
  apply outcome_bind_ok in H as (bullets & Hbul & H & _).
  cbn [outcome snd ret] in H. injection H as <-. right.
  exists k, resp, body, field, items, bullets.
  apply Z.eqb_eq in Hst. apply mapM_bullet_ok in Hbul.
  repeat split; assumption.
Qed.

Lemma Forall2_length_eq {A B} (R : A -> B -> Prop) (xs : list A) (ys : list B) :
  Forall2 R xs ys -> length xs = length ys.
Proof. induction 1; cbn; congruence. Qed.

(** A GET in the trace of a run: the encyclopedia step had returned, the key
    is the one of the environment, and the GET is the run's second call. *)
Lemma run_research_in_get (g : namespace) (w : World) (question : MetaculusQuestion)
    (url : str) :
  In (EvHttpGet url) (trace (run_research_in g w question)) ->
  exists r k, wikipedia_result w question [] = Ok r /\
              bound g (lit "os") = true /\ bound g (lit "requests") = true /\
              getenv w (lit "NEWS_API_KEY") = Some k /\ truthy k = true /\
              url = news_url (firstn 50 (question_text question)) k.
Proof.
  rewrite run_research_in_trace. intros [H | Hin]; [discriminate |].
  destruct (wikipedia_result w question []) as [r | e]; [| destruct Hin].
  destruct (news_step_trace_cases g w question r)
    as [Ht | (Hos & Hreq & k & Hkey & Hk & Ht)]; rewrite Ht in Hin.
  - destruct Hin.
  - destruct Hin as [Hev | []]. apply EvHttpGet_inj in Hev.
    exists r, k. repeat split; trivial. now symmetry.
Qed.

(** * The claims *)

(** C1.  The news step is meant to run exactly when NEWS_API_KEY is set, and
    to be skipped without error otherwise.  main.py never imports [os], so
    line 45 raises [NameError] for every question and every environment: no
    GET is ever issued, and [run_research] never returns; when the
    encyclopedia lookup itself succeeds the exception is the [NameError]. *)
Theorem news_gate_raises_NameError (w : World) (question : MetaculusQuestion) :
  (forall url, ~ In (EvHttpGet url) (trace (run_research w question))) /\
  (forall blob, outcome (run_research w question) <> Ok blob) /\
  (forall r, wikipedia_result w question [] = Ok r ->
             outcome (run_research w question) = Raise (NameError (lit "os"))).
Proof.
  rewrite run_research_eq. cbn [trace outcome fst snd]. repeat split.
  - intros url [H | []]. discriminate.
  - intros blob. destruct (wikipedia_result w question []); discriminate.
  - now intros r ->.
Qed.

Example news_gate_key_absent :
  run_research world_nothing short_question
  = ([EvWikiPage (lit "Will X happen by 2025?")], Raise (NameError (lit "os"))).
Proof. vm_compute. reflexivity. Qed.

Example news_gate_key_set :
  run_research world_news short_question
  = ([EvWikiPage (lit "Will X happen by 2025?")], Raise (NameError (lit "os"))).
Proof. vm_compute. reflexivity. Qed.




(** The run of the witness: the lookup, then the GET. *)
Example sp_question_run :
  trace (run_research_in globals_with_os world_news sp_question)
  = [EvWikiPage (lit "Will the S&P 500 index close above 6000 points at ");
     EvHttpGet (lit "https://newsapi.org/v2/everything?q=Will the S&P 500 index close above 6000 points at &apiKey=k")].
Proof. vm_compute. reflexivity. Qed.

(** C3.  No encyclopedia page and no key: the placeholder is meant to be
    returned; [run_research] raises [NameError] at line 45 instead. *)
Theorem placeholder_not_returned (w : World) (question : MetaculusQuestion) :
  page_exists (wiki_page w (firstn 50 (question_text question))) = Ok false ->
  getenv w (lit "NEWS_API_KEY") = None ->
  run_research w question
  = ([EvWikiPage (firstn 50 (question_text question))], Raise (NameError (lit "os"))).
Proof.
  intros Hpage _. rewrite run_research_eq. unfold wikipedia_result.
  now rewrite Hpage.
Qed.

Lemma placeholder_not_returned_witness :
  run_research world_nothing short_question
  = ([EvWikiPage (firstn 50 (question_text short_question))],
     Raise (NameError (lit "os"))).
Proof.
  apply (placeholder_not_returned world_nothing short_question); reflexivity.
Defined.

(** C4.  The encyclopedia page exists: a blob with the header and the
    truncated summary is meant to be returned; [run_research] builds that
    section and then raises [NameError] at line 45, so no blob is returned. *)
Theorem wikipedia_section_not_returned (w : World) (question : MetaculusQuestion)
    (s : str) :
  page_exists (wiki_page w (firstn 50 (question_text question))) = Ok true ->
  page_summary (wiki_page w (firstn 50 (question_text question))) = Ok s ->
  wikipedia_result w question []
    = Ok [lit "Wikipedia Summary:" ++ [nl] ++ firstn 1000 s] /\
  run_research w question
  = ([EvWikiPage (firstn 50 (question_text question))], Raise (NameError (lit "os"))).
Proof.
  intros Hpage Hsum.
  assert (H : wikipedia_result w question []
              = Ok [lit "Wikipedia Summary:" ++ [nl] ++ firstn 1000 s]).
  { unfold wikipedia_result. now rewrite Hpage, Hsum. }
  split; [exact H |]. rewrite run_research_eq. now rewrite H.
Qed.

Lemma wikipedia_section_not_returned_witness :
  wikipedia_result world_page short_question []
    = Ok [lit "Wikipedia Summary:" ++ [nl] ++ firstn 1000 (lit "X is ...")] /\
  run_research world_page short_question
  = ([EvWikiPage (firstn 50 (question_text short_question))],
     Raise (NameError (lit "os"))).
Proof.
  apply (wikipedia_section_not_returned world_page short_question (lit "X is ..."));
    reflexivity.
Defined.

(** C5.  Whenever a blob that [run_research] returns holds a news section,
    that section is the header followed by at most three bullet lines, each
    "- title (url)" of one of the first three articles of the answer, however
    many the answer holds; and when the GET is answered with a status other
    than 200 the method returns, without any error, the blob of the
    encyclopedia step alone. *)
Theorem news_section_at_most_three (g : namespace) (w : World)
    (question : MetaculusQuestion) :
  (forall blob, outcome (run_research_in g w question) = Ok blob ->
     exists r, wikipedia_result w question [] = Ok r /\
       (blob = research_blob r \/
        exists k resp body field items bullets,
          requests_get w (news_url (firstn 50 (question_text question)) k) = Ok resp /\
          status_code resp = 200%Z /\
          response_json resp = Ok body /\
          get_articles body = Ok field /\
          slice3_items field = Ok items /\
          (forall all, field = JArr all -> items = firstn 3 all) /\
          length bullets <= 3 /\
          Forall2 (is_bullet_of w) items bullets /\
          blob = research_blob
                   (r ++ [lit "News Headlines:" ++ [nl] ++ join [nl] bullets]))) /\
  (forall url resp,
     In (EvHttpGet url) (trace (run_research_in g w question)) ->
     requests_get w url = Ok resp ->
     status_code resp <> 200%Z ->
     exists r, wikipedia_result w question [] = Ok r /\
       run_research_in g w question
       = ([EvWikiPage (firstn 50 (question_text question)); EvHttpGet url],
          Ok (research_blob r))).
Proof.
  split.
  - intros blob H.
    apply run_research_in_ok in H as (r & r' & Hr & Hn & ->).
    exists r. split; [exact Hr |].
    apply news_step_ok_section in Hn
      as [-> | (k & resp & body & field & items & bullets
                & Hget & Hst & Hbody & Hfield & Hitems & Hbul & ->)].
    + now left.
    + right. exists k, resp, body, field, items, bullets.
      repeat split; trivial.
      * intros all ->. cbn [slice3_items] in Hitems. now injection Hitems as <-.
      * rewrite <- (Forall2_length_eq _ _ _ Hbul).
        now apply slice3_items_length with (field := field).
  - intros url resp Hin Hget Hst.
    apply run_research_in_get in Hin
      as (r & k & Hr & Hos & Hreq & Hkey & Hk & ->).
    exists r. split; [exact Hr |].
    apply (run_research_in_returns g w question Hr).
    now apply (@news_step_non_200 g w question r k resp).
Qed.

Lemma news_section_at_most_three_witness :
  (exists r, wikipedia_result world_404 short_question [] = Ok r /\
     run_research_in globals_with_os world_404 short_question
     = ([EvWikiPage (firstn 50 (question_text short_question));
         EvHttpGet (news_url (firstn 50 (question_text short_question)) (lit "k"))],
        Ok (research_blob r))) /\
  (exists r, wikipedia_result world_news short_question [] = Ok r /\
     (lit "News Headlines:" ++ [nl] ++ lit "- a (u1)" ++ [nl] ++ lit "- b (u2)"
        ++ [nl] ++ lit "- c (u3)" = research_blob r \/
      exists k resp body field items bullets,
        requests_get world_news
          (news_url (firstn 50 (question_text short_question)) k) = Ok resp /\
        status_code resp = 200%Z /\
        response_json resp = Ok body /\
        get_articles body = Ok field /\
        slice3_items field = Ok items /\
        (forall all, field = JArr all -> items = firstn 3 all) /\
        length bullets <= 3 /\
        Forall2 (is_bullet_of world_news) items bullets /\
        lit "News Headlines:" ++ [nl] ++ lit "- a (u1)" ++ [nl] ++ lit "- b (u2)"
          ++ [nl] ++ lit "- c (u3)"
        = research_blob (r ++ [lit "News Headlines:" ++ [nl] ++ join [nl] bullets]))).
Proof.
  split.
  - apply (proj2 (news_section_at_most_three globals_with_os world_404 short_question)
             (news_url (firstn 50 (question_text short_question)) (lit "k"))
             {| status_code := 404; response_json := Ok JNull |}).
    + vm_compute. right. left. reflexivity.
    + reflexivity.
    + discriminate.
  - apply (proj1 (news_section_at_most_three globals_with_os world_news short_question)).
    vm_compute. reflexivity.
Defined.

(** C9.  Whenever [run_research] returns, in any namespace, the blob is not
    empty: it is the placeholder or the sections joined; hence line 72 embeds
    the blob itself and never "No research conducted". *)
Theorem research_blob_never_empty (g : namespace) (w : World)
    (question : MetaculusQuestion) (blob : str) :
  outcome (run_research_in g w question) = Ok blob ->
  blob <> [] /\
  (blob = lit "No free research available" \/
   exists section rest, section <> [] /\ blob = join [nl; nl] (section :: rest)) /\
  research_or_default blob = blob.
Proof.
  intros H.
  assert (Hshape : blob = lit "No free research available" \/
                   exists section rest, section <> [] /\
                                        blob = join [nl; nl] (section :: rest)).
  { apply run_research_in_ok in H as (r & r' & Hr & Hn & ->).
    apply wikipedia_result_shape in Hr as [-> | (s & _ & ->)];
      apply news_step_ok in Hn as [-> | (bullets & _ & ->)].
    - now left.
    - right. exists (news_header ++ join [nl] bullets), []. split; [discriminate | reflexivity].
    - right. eexists _, []. split; [| reflexivity]. discriminate.
    - right. eexists _, [_]. split; [| reflexivity]. discriminate. }
  assert (Hne : blob <> []).
  { destruct Hshape as [-> | (section & rest & Hs & ->)]; [discriminate |].
    now apply join_nonempty. }
  repeat split; [exact Hne | exact Hshape |].
  unfold research_or_default. destruct blob; [congruence | reflexivity].
Qed.

Lemma research_blob_never_empty_witness :
  lit "No free research available" <> [] /\
  (lit "No free research available" = lit "No free research available" \/
   exists section rest, section <> [] /\
     lit "No free research available" = join [nl; nl] (section :: rest)) /\
  research_or_default (lit "No free research available")
  = lit "No free research available".
Proof.
  apply (research_blob_never_empty globals_with_os world_nothing short_question
           (lit "No free research available")).
  reflexivity.
Defined.

(** C10.  When the GET is answered 200 with a body whose [articles] is
    missing or is the empty array, [run_research] returns a blob whose news
    section is the bare header: the blob is not empty and is not the
    placeholder, and it is the header alone when there is no encyclopedia
    page. *)
Theorem empty_articles_give_bare_header (g : namespace) (w : World)
    (question : MetaculusQuestion) (url : str) (resp : Response)
    (d : list (str * json)) :
  In (EvHttpGet url) (trace (run_research_in g w question)) ->
  requests_get w url = Ok resp ->
  status_code resp = 200%Z ->
  response_json resp = Ok (JObj d) ->
  dict_lookup (lit "articles") d = None \/ dict_lookup (lit "articles") d = Some (JArr []) ->
  exists r blob,
    wikipedia_result w question [] = Ok r /\
    run_research_in g w question
    = ([EvWikiPage (firstn 50 (question_text question)); EvHttpGet url], Ok blob) /\
    blob = research_blob (r ++ [lit "News Headlines:" ++ [nl]]) /\
    blob <> [] /\
    blob <> lit "No free research available" /\
    (page_exists (wiki_page w (firstn 50 (question_text question))) = Ok false ->
     blob = lit "News Headlines:" ++ [nl]).
Proof.
  intros Hin Hget Hst Hbody Hart.
  apply run_research_in_get in Hin as (r & k & Hr & Hos & Hreq & Hkey & Hk & ->).
  assert (Hfield : get_articles (JObj d) = Ok (JArr [])).
  { unfold get_articles. now destruct Hart as [-> | ->]. }
  pose proof (@news_step_200 g w question r k resp (JObj d) (JArr []) [] []
                Hos Hreq Hkey Hk Hget Hst Hbody Hfield eq_refl eq_refl) as Hn.
  replace (news_header ++ join [nl] []) with (lit "News Headlines:" ++ [nl]) in Hn
    by (unfold news_header; cbn [join]; now rewrite app_nil_r).
  exists r, (research_blob (r ++ [lit "News Headlines:" ++ [nl]])).
  split; [exact Hr |].
  split; [exact (run_research_in_returns g w question Hr Hn) |].
  split; [reflexivity |].
  pose proof Hr as Hshape.
  apply wikipedia_result_shape in Hshape as [-> | (s & _ & ->)].
  - repeat split; discriminate.
  - remember (firstn 1000 s) as text eqn:Etext.
    repeat split; try discriminate.
    intros Hpage. unfold wikipedia_result in Hr. rewrite Hpage in Hr. discriminate.
Qed.

Lemma empty_articles_give_bare_header_witness :
  exists r blob,
    wikipedia_result world_no_articles short_question [] = Ok r /\
    run_research_in globals_with_os world_no_articles short_question
    = ([EvWikiPage (firstn 50 (question_text short_question));
        EvHttpGet (news_url (firstn 50 (question_text short_question)) (lit "k"))],
       Ok blob) /\
    blob = research_blob (r ++ [lit "News Headlines:" ++ [nl]]) /\
    blob <> [] /\
    blob <> lit "No free research available" /\
    (page_exists (wiki_page world_no_articles (firstn 50 (question_text short_question)))
     = Ok false ->
     blob = lit "News Headlines:" ++ [nl]).
Proof.
  apply (empty_articles_give_bare_header globals_with_os world_no_articles short_question
           (news_url (firstn 50 (question_text short_question)) (lit "k"))
           {| status_code := 200;
              response_json := Ok (JObj [(lit "articles", JArr [])]) |}
           [(lit "articles", JArr [])]).
  - vm_compute. right. left. reflexivity.
  - reflexivity.
  - reflexivity.
  - reflexivity.
  - right. reflexivity.
Defined.

(** ** Indentation *)









(** ** The date *)





(** ** Numerals *)

Lemma decimal_digits_value (fuel : nat) (n : N) (acc : str) :
  (n < 10 ^ N.of_nat fuel)%N ->
  fold_left (fun v c => (10 * v + (Z.of_N c - 48))%Z) (decimal_digits fuel n acc) 0%Z
  = fold_left (fun v c => (10 * v + (Z.of_N c - 48))%Z) acc (Z.of_N n).
Proof.
  revert n acc. induction fuel as [| fuel IH]; intros n acc Hn.
  - cbn in Hn. assert (n = 0%N) as -> by lia. reflexivity.
  - cbn [decimal_digits]. destruct (n <? 10)%N eqn:Hlt.
    + apply N.ltb_lt in Hlt. cbn [fold_left]. f_equal.
      rewrite N.mod_small by exact Hlt. unfold digit_char. lia.
    + apply N.ltb_ge in Hlt. rewrite IH.
      * cbn [fold_left]. f_equal. unfold digit_char.
        pose proof (N.div_mod n 10). lia.
      * rewrite Nat2N.inj_succ, N.pow_succ_r' in Hn.
        apply N.Div0.div_lt_upper_bound; lia.
Qed.

Lemma decimal_digits_are_digits (fuel : nat) (n : N) (acc : str) :
  forallb is_digit acc = true -> forallb is_digit (decimal_digits fuel n acc) = true.
Proof.
  revert n acc. induction fuel as [| fuel IH]; intros n acc Hacc; [exact Hacc |].
  cbn [decimal_digits].
  assert (Hd : forallb is_digit (digit_char (n mod 10) :: acc) = true).
  { cbn [forallb]. rewrite Hacc, is_digit_digit_char; [reflexivity |].
    apply N.mod_lt. discriminate. }
  destruct (n <? 10)%N; [exact Hd | now apply IH].
Qed.

Lemma decimal_digits_nonempty (fuel : nat) (n : N) (acc : str) :
  acc <> [] -> decimal_digits fuel n acc <> [].
Proof.
  revert n acc. induction fuel as [| fuel IH]; intros n acc Hacc; [exact Hacc |].
  cbn [decimal_digits]. destruct (n <? 10)%N; [discriminate | apply IH; discriminate].
Qed.

Lemma decimal_text_value (n : N) :
  (n < 10 ^ 20)%N -> decimal_value (decimal_text n) = Z.of_N n.
Proof.
  intros Hn. unfold decimal_value, decimal_text.
  now rewrite (decimal_digits_value 20 n [] Hn).
Qed.

Lemma decimal_text_digits (n : N) :
  decimal_text n <> [] /\ forallb is_digit (decimal_text n) = true.
Proof.
  split.
  - unfold decimal_text. change 20 with (S 19). generalize 19. intros fuel.
    cbn [decimal_digits].
    destruct (n <? 10)%N; [discriminate | apply decimal_digits_nonempty; discriminate].
  - now apply decimal_digits_are_digits.
Qed.

Example sample_percentages : percentages sample_response = [20%Z; 73%Z].
Proof. vm_compute. reflexivity. Qed.

(** C6.  The prediction adopted is the last percentage-shaped value of the
    model's response: when the response is [a], the decimal numeral of [n],
    "%" and [b], with no digit at the end of [a] and no percentage in [b],
    the value is [n], whatever percentages [a] holds, and the reasoning is
    the whole response; in particular a response that ends in
    "Probability: 73%" gives 73. *)
Theorem last_percentage_adopted (w : World) (question : MetaculusQuestion)
    (research : str) :
  (forall (a b : str) (n : N),
     (n < 10 ^ 20)%N ->
     llm_invoke w (clean_indents w (prompt_text w question research))
       = Ok (a ++ decimal_text n ++ [pct] ++ b) ->
     ends_without_digit a = true ->
     has_percentage b = false ->
     outcome (_run_forecast_on_binary w question research)
     = Ok {| prediction_value := Z.of_N n;
             reasoning := a ++ decimal_text n ++ [pct] ++ b |}) /\
  (forall pre : str,
     llm_invoke w (clean_indents w (prompt_text w question research))
       = Ok (pre ++ lit "Probability: 73%") ->
     outcome (_run_forecast_on_binary w question research)
     = Ok {| prediction_value := 73; reasoning := pre ++ lit "Probability: 73%" |}).
Proof.
  assert (Hgen : forall (a b : str) (n : N),
     (n < 10 ^ 20)%N ->
     llm_invoke w (clean_indents w (prompt_text w question research))
       = Ok (a ++ decimal_text n ++ [pct] ++ b) ->
     ends_without_digit a = true ->
     has_percentage b = false ->
     outcome (_run_forecast_on_binary w question research)
     = Ok {| prediction_value := Z.of_N n;
             reasoning := a ++ decimal_text n ++ [pct] ++ b |}).
  { intros a b n Hn Hllm Ha Hb. rewrite run_forecast_eq. cbv zeta.
    cbn [outcome snd]. rewrite Hllm.
    destruct (decimal_text_digits n) as [Hne Hds].
    rewrite extract_last_percentage_value_last by assumption.
    now rewrite decimal_text_value. }
  split; [exact Hgen |].
  intros pre Hllm.
  replace (pre ++ lit "Probability: 73%")
    with ((pre ++ lit "Probability: ") ++ decimal_text 73 ++ [pct] ++ []) in *
    by (rewrite <- app_assoc; reflexivity).
  apply (Hgen (pre ++ lit "Probability: ") [] 73%N); trivial.
  - reflexivity.
  - unfold ends_without_digit. rewrite rev_app_distr. reflexivity.
Qed.

Lemma last_percentage_adopted_witness :
  outcome (_run_forecast_on_binary world_forecast short_question [])
  = Ok {| prediction_value := 73;
          reasoning := lit "Base rate is 20%, recent news push it up. "
                       ++ lit "Probability: 73%" |}.
Proof.
  apply (proj2 (last_percentage_adopted world_forecast short_question [])
           (lit "Base rate is 20%, recent news push it up. ")).
  reflexivity.
Defined.

(** The first percentage of the sample response is 20, the last one 73. *)
Example sample_first_percentage :
  hd_error (percentages sample_response) = Some 20%Z /\
  extract_last_percentage_value world_forecast sample_response = Ok 73%Z.
Proof. vm_compute. split; reflexivity. Qed.

(** A response that ends in "Probability: 73%" yields 73, whatever precedes. *)
Corollary probability_73 (w : World) (question : MetaculusQuestion)
    (research pre : str) :
  llm_invoke w (clean_indents w (prompt_text w question research))
    = Ok (pre ++ lit "Probability: 73%") ->
  outcome (_run_forecast_on_binary w question research)
  = Ok {| prediction_value := 73; reasoning := pre ++ lit "Probability: 73%" |}.
Proof.
  intros Hllm. rewrite run_forecast_eq. cbv zeta. cbn [outcome snd]. rewrite Hllm.
  replace (pre ++ lit "Probability: 73%")
    with ((pre ++ lit "Probability: ") ++ lit "73" ++ [pct] ++ [])
    by (now rewrite <- app_assoc).
  rewrite extract_last_percentage_value_last; try reflexivity; try discriminate.
  unfold ends_without_digit. rewrite rev_app_distr. reflexivity.
Qed.



(** The prompt of the witness, with the indentation of the template gone. *)
Example stripped_prompt_start :
  exists rest,
    clean_indents world_stripping (prompt_text world_stripping short_question [])
    = [nl] ++ lit "[Simplified free version]" ++ [nl]
      ++ lit "Question: Will X happen by 2025?" ++ [nl]
      ++ lit "Current Date: 2025-03-07" ++ [nl]
      ++ lit "Research: No research conducted" ++ [nl] ++ rest.
Proof. eexists. vm_compute. reflexivity. Qed.

Example sample_date_text : strftime_Ymd (now world_forecast) = lit "2025-03-07".
Proof. vm_compute. reflexivity. Qed.

(** * Further properties of the two methods *)

(** X1.  Only the first 50 characters of the question text reach
    [run_research]: two questions that agree on them get the same calls and
    the same result. *)
Theorem research_depends_on_first_50_only (g : namespace) (w : World)
    (q1 q2 : MetaculusQuestion) :
  firstn 50 (question_text q1) = firstn 50 (question_text q2) ->
  run_research_in g w q1 = run_research_in g w q2.
Proof.
  intros H. unfold run_research_in, wikipedia_step, news_step. cbv zeta.
  rewrite H. reflexivity.
Qed.

Lemma research_depends_on_first_50_only_witness :
  run_research_in globals_with_os world_news long_question
  = run_research_in globals_with_os world_news long_question_b.
Proof.
  apply (research_depends_on_first_50_only globals_with_os world_news
           long_question long_question_b).
  reflexivity.
Defined.

(** X2.  A question text of at most 50 characters is looked up whole: the
    first call is the encyclopedia lookup of the text itself, and any GET
    carries the text itself as its query. *)
Theorem short_text_looked_up_whole (g : namespace) (w : World)
    (question : MetaculusQuestion) :
  length (question_text question) <= 50 ->
  (exists rest, trace (run_research_in g w question)
                = EvWikiPage (question_text question) :: rest) /\
  (forall url, In (EvHttpGet url) (trace (run_research_in g w question)) ->
     exists key, url = lit "https://newsapi.org/v2/everything?q="
                       ++ question_text question ++ lit "&apiKey=" ++ key).
Proof.
  intros Hlen. rewrite run_research_in_trace.
  rewrite (@firstn_all2 N 50 (question_text question)) by exact Hlen.
  split; [eexists; reflexivity |].
  intros url [H | Hin]; [discriminate |].
  destruct (wikipedia_result w question []) as [r | e]; [| destruct Hin].
  apply news_step_trace in Hin as [key Hev]. apply EvHttpGet_inj in Hev. subst url.
  rewrite (@firstn_all2 N 50 (question_text question)) by exact Hlen.
  now exists key.
Qed.

Lemma short_text_looked_up_whole_witness :
  (exists rest, trace (run_research_in globals_with_os world_news short_question)
                = EvWikiPage (question_text short_question) :: rest) /\
  (forall url, In (EvHttpGet url)
                  (trace (run_research_in globals_with_os world_news short_question)) ->
     exists key, url = lit "https://newsapi.org/v2/everything?q="
                       ++ question_text short_question ++ lit "&apiKey=" ++ key).
Proof.
  apply (short_text_looked_up_whole globals_with_os world_news short_question).
  vm_compute. lia.
Defined.

(** X3.  An exception raised by the encyclopedia client, in [exists()] or
    in [summary], leaves [run_research] unchanged, in every namespace: the
    environment is not read and no news call is made. *)
Theorem encyclopedia_failure_propagates (g : namespace) (w : World)
    (question : MetaculusQuestion) (e : exn) :
  page_exists (wiki_page w (firstn 50 (question_text question))) = Raise e \/
  (page_exists (wiki_page w (firstn 50 (question_text question))) = Ok true /\
   page_summary (wiki_page w (firstn 50 (question_text question))) = Raise e) ->
  run_research_in g w question
  = ([EvWikiPage (firstn 50 (question_text question))], Raise e).
Proof.
  intros H. unfold run_research_in. rewrite wikipedia_step_eq.
  unfold wikipedia_result.
  destruct H as [-> | [-> ->]]; reflexivity.
Qed.

Lemma encyclopedia_failure_propagates_witness :
  run_research_in globals_with_os world_wiki_down short_question
  = ([EvWikiPage (firstn 50 (question_text short_question))], Raise timeout_error).
Proof.
  apply (encyclopedia_failure_propagates globals_with_os world_wiki_down
           short_question timeout_error).
  left. reflexivity.
Defined.

(** X4.  A news GET is only ever issued when [os] and [requests] are bound
    and NEWS_API_KEY is set to a non-empty value, and its URL then carries
    that value as the apiKey; an empty key counts as no key. *)
Theorem news_call_needs_key (g : namespace) (w : World)
    (question : MetaculusQuestion) (url : str) :
  In (EvHttpGet url) (trace (run_research_in g w question)) ->
  bound g (lit "os") = true /\ bound g (lit "requests") = true /\
  exists k, getenv w (lit "NEWS_API_KEY") = Some k /\ k <> [] /\
            url = lit "https://newsapi.org/v2/everything?q="
                  ++ firstn 50 (question_text question) ++ lit "&apiKey=" ++ k.
Proof.
  rewrite run_research_in_trace. intros [H | Hin]; [discriminate |].
  destruct (wikipedia_result w question []) as [r | e]; [| destruct Hin].
  destruct (news_step_trace_cases g w question r)
    as [Ht | (Hos & Hreq & k & Hkey & Hk & Ht)]; rewrite Ht in Hin.
  - destruct Hin.
  - destruct Hin as [Hev | []]. apply EvHttpGet_inj in Hev. subst url.
    repeat split; trivial. exists k. repeat split; trivial.
    intros ->. discriminate.
Qed.

Lemma news_call_needs_key_witness :
  bound globals_with_os (lit "os") = true /\
  bound globals_with_os (lit "requests") = true /\
  exists k, getenv world_news (lit "NEWS_API_KEY") = Some k /\ k <> [] /\
            lit "https://newsapi.org/v2/everything?q=Will X happen by 2025?&apiKey=k"
            = lit "https://newsapi.org/v2/everything?q="
              ++ firstn 50 (question_text short_question) ++ lit "&apiKey=" ++ k.
Proof.
  apply (news_call_needs_key globals_with_os world_news short_question
           (lit "https://newsapi.org/v2/everything?q=Will X happen by 2025?&apiKey=k")).
  vm_compute. right. left. reflexivity.
Defined.

(** X5.  [run_research] makes one encyclopedia lookup and then at most one
    GET, whatever the collaborators answer: nothing is retried and nothing is
    called twice. *)
Theorem at_most_two_calls (g : namespace) (w : World) (question : MetaculusQuestion) :
  trace (run_research_in g w question)
  = [EvWikiPage (firstn 50 (question_text question))] \/
  exists k, trace (run_research_in g w question)
            = [EvWikiPage (firstn 50 (question_text question));
               EvHttpGet (news_url (firstn 50 (question_text question)) k)].
Proof.
  rewrite run_research_in_trace.
  destruct (wikipedia_result w question []) as [r | e]; [| now left].
  destruct (news_step_trace_cases g w question r)
    as [Ht | (_ & _ & k & _ & _ & Ht)]; rewrite Ht.
  - now left.
  - right. now exists k.
Qed.

(** ** Failures and malformed answers in the news step

    Lines 46-52, reached in a namespace that binds [os] and [requests]. *)

(** X6.  A failure of [requests.get] is not caught: it leaves [run_research]
    after the two calls, and whatever the encyclopedia step had gathered is
    not returned. *)
Theorem news_transport_error_propagates (g : namespace) (w : World)
    (question : MetaculusQuestion) (r : list str) (k : str) (e : exn) :
  bound g (lit "os") = true ->
  bound g (lit "requests") = true ->
  wikipedia_result w question [] = Ok r ->
  getenv w (lit "NEWS_API_KEY") = Some k ->
  truthy k = true ->
  requests_get w (news_url (firstn 50 (question_text question)) k) = Raise e ->
  run_research_in g w question
  = ([EvWikiPage (firstn 50 (question_text question));
      EvHttpGet (news_url (firstn 50 (question_text question)) k)],
     Raise e).
Proof.
  intros Hos Hreq Hr Hkey Hk Hget.
  apply (run_research_in_raises g w question r _ e Hr).
  rewrite (@news_step_key g w question r k Hos Hreq Hkey Hk), Hget. reflexivity.
Qed.

Lemma news_transport_error_propagates_witness :
  run_research_in globals_with_os world_http_down short_question
  = ([EvWikiPage (firstn 50 (question_text short_question));
      EvHttpGet (news_url (firstn 50 (question_text short_question)) (lit "k"))],
     Raise timeout_error).
Proof.
  apply (news_transport_error_propagates globals_with_os world_http_down
           short_question [] (lit "k") timeout_error); reflexivity.
Defined.

Lemma mapM_bullet_titled (w : World) (items : list json) (pairs : list (str * str)) :
  Forall2 has_title_url items pairs ->
  mapM (bullet w) items = ([], Ok (map bullet_line pairs)).
Proof.
  induction 1 as [| a p items pairs [Ht Hu] _ IH]; [reflexivity |].
  cbn [mapM map]. unfold bullet at 1. rewrite Ht, Hu, IH. reflexivity.
Qed.

Lemma Forall2_firstn {A B} (R : A -> B -> Prop) (n : nat) (xs : list A) (ys : list B) :
  Forall2 R xs ys -> Forall2 R (firstn n xs) (firstn n ys).
Proof.
  intros H. revert n. induction H; intros [| n]; cbn [firstn]; constructor; auto.
Qed.

(** X7.  Only the first three entries of [articles] are looked at: when they
    are objects whose title and url are strings, whatever other fields they
    have, the section lists exactly these three, whatever follows them in the
    array, well formed or not. *)
Theorem later_articles_ignored (g : namespace) (w : World)
    (question : MetaculusQuestion) (research : list str) (k : str)
    (resp : Response) (d : list (str * json)) (a1 a2 a3 : json)
    (p1 p2 p3 : str * str) (rest : list json) :
  bound g (lit "os") = true ->
  bound g (lit "requests") = true ->
  getenv w (lit "NEWS_API_KEY") = Some k ->
  truthy k = true ->
  requests_get w (news_url (firstn 50 (question_text question)) k) = Ok resp ->
  status_code resp = 200%Z ->
  response_json resp = Ok (JObj d) ->
  dict_lookup (lit "articles") d = Some (JArr (a1 :: a2 :: a3 :: rest)) ->
  has_title_url a1 p1 ->
  has_title_url a2 p2 ->
  has_title_url a3 p3 ->
  outcome (news_step g w question research)
  = Ok (research ++ [lit "News Headlines:" ++ [nl]
                     ++ (lit "- " ++ fst p1 ++ lit " (" ++ snd p1 ++ lit ")") ++ [nl]
                     ++ (lit "- " ++ fst p2 ++ lit " (" ++ snd p2 ++ lit ")") ++ [nl]
                     ++ (lit "- " ++ fst p3 ++ lit " (" ++ snd p3 ++ lit ")")]).
Proof.
  intros Hos Hreq Hkey Hk Hget Hst Hbody Hart H1 H2 H3.
  rewrite (@news_step_200 g w question research k resp (JObj d)
             (JArr (a1 :: a2 :: a3 :: rest)) [a1; a2; a3]
             (map bullet_line [p1; p2; p3])
             Hos Hreq Hkey Hk Hget Hst Hbody).
  - reflexivity.
  - unfold get_articles. now rewrite Hart.
  - reflexivity.
  - rewrite (mapM_bullet_titled w [a1; a2; a3] [p1; p2; p3]); [reflexivity |].
    constructor; [exact H1 |]. constructor; [exact H2 |].
    constructor; [exact H3 | constructor].
Qed.

Lemma later_articles_ignored_witness :
  outcome (news_step globals_with_os world_full_junk_tail short_question [])
  = Ok ([] ++ [lit "News Headlines:" ++ [nl]
               ++ (lit "- " ++ lit "a" ++ lit " (" ++ lit "u1" ++ lit ")") ++ [nl]
               ++ (lit "- " ++ lit "b" ++ lit " (" ++ lit "u2" ++ lit ")") ++ [nl]
               ++ (lit "- " ++ lit "c" ++ lit " (" ++ lit "u3" ++ lit ")")]).
Proof.
  apply (later_articles_ignored globals_with_os world_full_junk_tail short_question []
           (lit "k") {| status_code := 200; response_json := Ok three_full_then_junk |}
           [(lit "articles",
             JArr [full_article (lit "a") (lit "u1"); full_article (lit "b") (lit "u2");
                   full_article (lit "c") (lit "u3"); JNull; JNum (lit "4")])]
           (full_article (lit "a") (lit "u1")) (full_article (lit "b") (lit "u2"))
           (full_article (lit "c") (lit "u3"))
           (lit "a", lit "u1") (lit "b", lit "u2") (lit "c", lit "u3")
           [JNull; JNum (lit "4")]); try reflexivity; split; reflexivity.
Defined.

(** X8.  A first article that is an object without a [title] raises
    [KeyError] for that key after the GET: no section is added and the
    exception is not caught. *)
Theorem article_without_title_raises (g : namespace) (w : World)
    (question : MetaculusQuestion) (research : list str) (k : str)
    (resp : Response) (d fields : list (str * json)) (items : list json) :
  bound g (lit "os") = true ->
  bound g (lit "requests") = true ->
  getenv w (lit "NEWS_API_KEY") = Some k ->
  truthy k = true ->
  requests_get w (news_url (firstn 50 (question_text question)) k) = Ok resp ->
  status_code resp = 200%Z ->
  response_json resp = Ok (JObj d) ->
  dict_lookup (lit "articles") d = Some (JArr (JObj fields :: items)) ->
  dict_lookup (lit "title") fields = None ->
  news_step g w question research
  = ([EvHttpGet (news_url (firstn 50 (question_text question)) k)],
     Raise (KeyError (lit "title"))).
Proof.
  intros Hos Hreq Hkey Hk Hget Hst Hbody Hart Htitle.
  rewrite (@news_step_key g w question research k Hos Hreq Hkey Hk), Hget.
  unfold call. rewrite bind_ok, Hst. cbn [Z.eqb Pos.eqb].
  rewrite Hbody, bind_lift_ok. unfold get_articles. rewrite Hart, bind_lift_ok.
  unfold slice3_items.
  change (firstn 3 (JObj fields :: items)) with (JObj fields :: firstn 2 items).
  rewrite bind_lift_ok. cbn [mapM].
  assert (Hb : bullet w (JObj fields) = ([], Raise (KeyError (lit "title")))).
  { unfold bullet, getitem. now rewrite Htitle. }
  rewrite Hb. reflexivity.
Qed.

Lemma article_without_title_raises_witness :
  news_step globals_with_os world_untitled short_question []
  = ([EvHttpGet (news_url (firstn 50 (question_text short_question)) (lit "k"))],
     Raise (KeyError (lit "title"))).
Proof.
  apply (article_without_title_raises globals_with_os world_untitled short_question []
           (lit "k") {| status_code := 200; response_json := Ok untitled_first |}
           [(lit "articles", JArr [JObj [(lit "url", JStr (lit "u1"))];
                                   article (lit "b") (lit "u2")])]
           [(lit "url", JStr (lit "u1"))] [article (lit "b") (lit "u2")]);
    reflexivity.
Defined.

(** X9.  The default of [.get('articles', [])] only covers a missing key: a
    body whose [articles] is null raises [TypeError] at the slice, after the
    GET, where a body without the key yields the bare header. *)
Theorem null_articles_raises_TypeError (g : namespace) (w : World)
    (question : MetaculusQuestion) (research : list str) (k : str)
    (resp : Response) (d : list (str * json)) :
  bound g (lit "os") = true ->
  bound g (lit "requests") = true ->
  getenv w (lit "NEWS_API_KEY") = Some k ->
  truthy k = true ->
  requests_get w (news_url (firstn 50 (question_text question)) k) = Ok resp ->
  status_code resp = 200%Z ->
  response_json resp = Ok (JObj d) ->
  dict_lookup (lit "articles") d = Some JNull ->
  news_step g w question research
  = ([EvHttpGet (news_url (firstn 50 (question_text question)) k)], Raise TypeError).
Proof.
  intros Hos Hreq Hkey Hk Hget Hst Hbody Hart.
  rewrite (@news_step_key g w question research k Hos Hreq Hkey Hk), Hget.
  unfold call. rewrite bind_ok, Hst. cbn [Z.eqb Pos.eqb].
  rewrite Hbody, bind_lift_ok. unfold get_articles. rewrite Hart, bind_lift_ok.
  reflexivity.
Qed.

Lemma null_articles_raises_TypeError_witness :
  news_step globals_with_os world_null_articles short_question []
  = ([EvHttpGet (news_url (firstn 50 (question_text short_question)) (lit "k"))],
     Raise TypeError).
Proof.
  apply (null_articles_raises_TypeError globals_with_os world_null_articles
           short_question [] (lit "k")
           {| status_code := 200; response_json := Ok (JObj [(lit "articles", JNull)]) |}
           [(lit "articles", JNull)]); reflexivity.
Defined.

(** X10.  When both steps produce a section, the blob is the encyclopedia
    section, a blank line, and the news section, in that order, with the
    summary cut at 1000 characters and the bullets of the first three
    entries; the entries are objects whose title and url are strings,
    whatever other fields they have. *)
Theorem both_sections_blob (g : namespace) (w : World)
    (question : MetaculusQuestion) (s k : str) (resp : Response)
    (d : list (str * json)) (items : list json) (arts : list (str * str)) :
  bound g (lit "os") = true ->
  bound g (lit "requests") = true ->
  page_exists (wiki_page w (firstn 50 (question_text question))) = Ok true ->
  page_summary (wiki_page w (firstn 50 (question_text question))) = Ok s ->
  getenv w (lit "NEWS_API_KEY") = Some k ->
  truthy k = true ->
  requests_get w (news_url (firstn 50 (question_text question)) k) = Ok resp ->
  status_code resp = 200%Z ->
  response_json resp = Ok (JObj d) ->
  dict_lookup (lit "articles") d = Some (JArr items) ->
  Forall2 has_title_url items arts ->
  run_research_in g w question
  = ([EvWikiPage (firstn 50 (question_text question));
      EvHttpGet (news_url (firstn 50 (question_text question)) k)],
     Ok ((lit "Wikipedia Summary:" ++ [nl] ++ firstn 1000 s)
         ++ [nl; nl]
         ++ (lit "News Headlines:" ++ [nl]
             ++ join [nl] (map (fun a => lit "- " ++ fst a ++ lit " (" ++ snd a ++ lit ")")
                               (firstn 3 arts))))).
Proof.
  intros Hos Hreq Hpage Hsum Hkey Hk Hget Hst Hbody Hart Hitems.
  assert (Hr : wikipedia_result w question []
               = Ok [lit "Wikipedia Summary:" ++ [nl] ++ firstn 1000 s]).
  { unfold wikipedia_result. now rewrite Hpage, Hsum. }
  rewrite (@run_research_in_returns g w question _
             ([lit "Wikipedia Summary:" ++ [nl] ++ firstn 1000 s]
              ++ [news_header ++ join [nl] (map bullet_line (firstn 3 arts))])
             [EvHttpGet (news_url (firstn 50 (question_text question)) k)] Hr).
  - reflexivity.
  - apply (@news_step_200 g w question _ k resp (JObj d) (JArr items)
             (firstn 3 items) (map bullet_line (firstn 3 arts))
             Hos Hreq Hkey Hk Hget Hst Hbody).
    + unfold get_articles. now rewrite Hart.
    + reflexivity.
    + rewrite (mapM_bullet_titled w (firstn 3 items) (firstn 3 arts));
        [reflexivity | now apply Forall2_firstn].
Qed.

Lemma both_sections_blob_witness :
  run_research_in globals_with_os world_both_full short_question
  = ([EvWikiPage (firstn 50 (question_text short_question));
      EvHttpGet (news_url (firstn 50 (question_text short_question)) (lit "k"))],
     Ok ((lit "Wikipedia Summary:" ++ [nl] ++ firstn 1000 (lit "X is ..."))
         ++ [nl; nl]
         ++ (lit "News Headlines:" ++ [nl]
             ++ join [nl] (map (fun a => lit "- " ++ fst a ++ lit " (" ++ snd a ++ lit ")")
                             (firstn 3 [(lit "a", lit "u1"); (lit "b", lit "u2");
                                        (lit "c", lit "u3"); (lit "d", lit "u4");
                                        (lit "e", lit "u5")]))))).
Proof.
  apply (both_sections_blob globals_with_os world_both_full short_question
           (lit "X is ...") (lit "k")
           {| status_code := 200; response_json := Ok five_full_articles |}
           [(lit "status", JStr (lit "ok")); (lit "totalResults", JNum (lit "5"));
            (lit "articles",
             JArr [full_article (lit "a") (lit "u1"); full_article (lit "b") (lit "u2");
                   full_article (lit "c") (lit "u3"); full_article (lit "d") (lit "u4");
                   full_article (lit "e") (lit "u5")])]
           [full_article (lit "a") (lit "u1"); full_article (lit "b") (lit "u2");
            full_article (lit "c") (lit "u3"); full_article (lit "d") (lit "u4");
            full_article (lit "e") (lit "u5")]
           [(lit "a", lit "u1"); (lit "b", lit "u2"); (lit "c", lit "u3");
            (lit "d", lit "u4"); (lit "e", lit "u5")]); try reflexivity.
  repeat constructor.
Defined.

(** ** _run_forecast_on_binary *)

(** X11.  A failure of the model call is not caught: the forecast raises the
    same exception after the one call, and nothing is extracted. *)
Theorem model_failure_propagates (w : World) (question : MetaculusQuestion)
    (research : str) (e : exn) :
  llm_invoke w (clean_indents w (prompt_text w question research)) = Raise e ->
  _run_forecast_on_binary w question research
  = ([EvLlmInvoke (clean_indents w (prompt_text w question research))], Raise e).
Proof.
  intros Hllm. rewrite run_forecast_eq. cbv zeta. now rewrite Hllm.
Qed.

Lemma model_failure_propagates_witness :
  _run_forecast_on_binary world_llm_down short_question []
  = ([EvLlmInvoke (clean_indents world_llm_down
                     (prompt_text world_llm_down short_question []))],
     Raise timeout_error).
Proof.
  apply (model_failure_propagates world_llm_down short_question [] timeout_error).
  reflexivity.
Defined.

(** X12.  Whenever the forecast returns, its reasoning is the model's
    response to the prompt, unchanged, and its value is the one extracted
    from that same text. *)
Theorem returned_reasoning_is_response (w : World) (question : MetaculusQuestion)
    (research : str) (p : ReasonedPrediction) :
  outcome (_run_forecast_on_binary w question research) = Ok p ->
  llm_invoke w (clean_indents w (prompt_text w question research)) = Ok (reasoning p) /\
  extract_last_percentage_value w (reasoning p) = Ok (prediction_value p).
Proof.
  rewrite run_forecast_eq. cbv zeta. cbn [outcome snd].
  destruct (llm_invoke w _) as [text | e]; [| discriminate].
  destruct (extract_last_percentage_value w text) as [v | e] eqn:Hv; [| discriminate].
  intros [= <-]. cbn [reasoning prediction_value]. now split.
Qed.

Lemma returned_reasoning_is_response_witness :
  llm_invoke world_forecast
    (clean_indents world_forecast (prompt_text world_forecast short_question []))
  = Ok (reasoning {| prediction_value := 73; reasoning := sample_response |}) /\
  extract_last_percentage_value world_forecast
    (reasoning {| prediction_value := 73; reasoning := sample_response |})
  = Ok (prediction_value {| prediction_value := 73; reasoning := sample_response |}).
Proof.
  apply (returned_reasoning_is_response world_forecast short_question []
           {| prediction_value := 73; reasoning := sample_response |}).
  vm_compute. reflexivity.
Defined.

(** X13.  The model cannot tell an empty research string from the text
    "No research conducted": both give the same prompt, hence the same call
    and the same forecast. *)
Theorem empty_research_is_placeholder (w : World) (question : MetaculusQuestion) :
  _run_forecast_on_binary w question []
  = _run_forecast_on_binary w question (lit "No research conducted").
Proof. rewrite !run_forecast_eq. reflexivity. Qed.
